(** * Adversarial simulation driver (samples/python/agents/any_agent/__main__.py)

    A shallow embedding of the script: the substring check
    [was_attack_successful], the context manager [A2AServedAgent], the
    generator-based manager [create_defender_agent_server] and the driver
    [main].  The agent framework (any_agent) is external to the script; its
    calls are modelled as recorded events whose outcomes come from an
    oracle that may depend on the whole history of calls. *)

From Stdlib Require Import List String Ascii ZArith NArith Bool Lia DecimalString.
From Stdlib Require DecimalPos.
Import ListNotations.

Local Open Scope N_scope.

(** ** Python strings

    A [str] is a sequence of Unicode code points. *)

Definition pystr := list N.

(** A literal whose characters are all ASCII. *)
Definition lit (s : string) : pystr := map N_of_ascii (list_ascii_of_string s).

(** [c * n] for a one-character string [c]. *)
Definition str_repeat (c : N) (n : nat) : pystr := repeat c n.

Definition is_ascii_upper (c : N) : bool := (65 <=? c) && (c <=? 90).

Definition ascii_lower (c : N) : N := if is_ascii_upper c then c + 32 else c.

(** [prefix.startswith]-style test: does [s] begin with [p]? *)
Fixpoint startswith (s p : pystr) {struct p} : bool :=
  match p, s with
  | [], _ => true
  | _ :: _, [] => false
  | a :: p', b :: s' => (a =? b) && startswith s' p'
  end.

(** [needle in hay] on strings: substring search, leftmost position first. *)
Fixpoint contains (needle hay : pystr) : bool :=
  startswith hay needle
  || match hay with
     | [] => false
     | _ :: hay' => contains needle hay'
     end.

(** What "contains the exact substring" means, independently of any search. *)
Definition substring_of (needle hay : pystr) : Prop :=
  exists pre suf, hay = pre ++ needle ++ suf.

(** Decimal digits of [str(n)] for an integer. *)
Fixpoint uint_digits (d : Decimal.uint) : pystr :=
  match d with
  | Decimal.Nil => []
  | Decimal.D0 d => 48 :: uint_digits d
  | Decimal.D1 d => 49 :: uint_digits d
  | Decimal.D2 d => 50 :: uint_digits d
  | Decimal.D3 d => 51 :: uint_digits d
  | Decimal.D4 d => 52 :: uint_digits d
  | Decimal.D5 d => 53 :: uint_digits d
  | Decimal.D6 d => 54 :: uint_digits d
  | Decimal.D7 d => 55 :: uint_digits d
  | Decimal.D8 d => 56 :: uint_digits d
  | Decimal.D9 d => 57 :: uint_digits d
  end.

(** [str(i)] for an [int]: a minus sign for negatives, no leading zeros. *)
Definition str_int (i : Z) : pystr :=
  match i with
  | Z0 => [48]
  | Zpos p => uint_digits (Pos.to_uint p)
  | Zneg p => 45 :: uint_digits (Pos.to_uint p)
  end.

(** ** Values of the framework

    Objects handed out by any_agent are opaque to the script; each is
    represented by a reference number together with the attributes the
    script reads. *)

Inductive AgentFramework := OPENAI | TINYAGENT.

(** [A2AServingConfig]: the script sets [port] and reads [endpoint] through
    [getattr(..., 'endpoint', '')]; [None] stands for an object without that
    attribute. *)
Record A2AServingConfig := {
  port : Z;
  endpoint : option pystr
}.

(** The object returned by [serve_async]; the script reads [.port] and calls
    [.shutdown()].  It is a plain object, hence truthy. *)
Record ServerHandle := {
  handle_ref : nat;
  handle_port : Z
}.

Record AnyAgent := { agent_ref : nat }.

(** A tool in an agent's tool list: the callable returned by
    [a2a_tool_async(url=..., http_kwargs={'timeout': ...})], or the local
    function [was_attack_successful]. *)
Inductive Tool :=
| RemoteTool (url : pystr) (timeout : Z) (ref : nat)
| LocalTool_was_attack_successful.

Inductive ArgValue :=
| ArgFloat (literal : pystr)
| ArgBool (b : bool).

(** The keyword arguments the script passes to [AgentConfig]; [None] for one
    it leaves out. *)
Record AgentConfig := {
  model_id : pystr;
  name : pystr;
  instructions : pystr;
  description : option pystr;
  model_args : list (pystr * ArgValue);
  tools : option (list Tool)
}.

(** [agent_trace.final_output] is a string, nothing, or some other object of
    which only [str(...)] is used. *)
Inductive PyObject :=
| ObjNone
| ObjStr (s : pystr)
| ObjOther (str_of : pystr).

Definition py_str (o : PyObject) : pystr :=
  match o with
  | ObjNone => lit "None"
  | ObjStr s => s
  | ObjOther s => s
  end.

Record AgentTrace := { final_output : PyObject }.

(** Return values of [__aexit__]-like methods, with Python truthiness. *)
Inductive PyVal := PyNone | PyBool (b : bool).

Definition truthy (v : PyVal) : bool :=
  match v with
  | PyNone => false
  | PyBool b => b
  end.

(** Truthiness of [self.handle]: [None] is falsy, a handle object is truthy. *)
Definition handle_truthy (h : option ServerHandle) : bool :=
  match h with
  | None => false
  | Some _ => true
  end.

(** ** Effects

    Exceptions are values; a computation either returns or raises. *)

Inductive Exn := PyExn (type_name : string) (message : string).

Definition AssertionError : Exn := PyExn "AssertionError" "".

Inductive Result (A : Type) :=
| Ok (a : A)
| Raise (e : Exn).

Arguments Ok {A} a.
Arguments Raise {A} e.

(** Everything the script does to the outside world, in order. *)
Inductive Event :=
| EvCreate (framework : AgentFramework) (config : AgentConfig)
| EvServe (agent : AnyAgent) (config : A2AServingConfig)
| EvShutdown (h : ServerHandle)
| EvA2ATool (url : pystr) (timeout : Z)
| EvRun (agent : AnyAgent) (prompt : pystr)
| EvLogInfo (msg : pystr)
| EvPrint (text : pystr).

Definition Trace := list Event.

(** The framework's behaviour: the outcome of each call, given the history so
    far and the call's arguments. *)
Record Framework := {
  create_async_outcome : Trace -> AgentFramework -> AgentConfig -> Result AnyAgent;
  serve_async_outcome : Trace -> AnyAgent -> A2AServingConfig -> Result (option ServerHandle);
  shutdown_outcome : Trace -> ServerHandle -> Result unit;
  a2a_tool_async_outcome : Trace -> pystr -> Z -> Result nat;
  run_async_outcome : Trace -> AnyAgent -> pystr -> Result AgentTrace
}.

(** State (the trace) and exceptions. *)
Definition M (A : Type) : Type := Trace -> Result A * Trace.

Definition ret {A} (a : A) : M A := fun t => (Ok a, t).

Definition raise {A} (e : Exn) : M A := fun t => (Raise e, t).

Definition bind {A B} (m : M A) (k : A -> M B) : M B :=
  fun t =>
    match m t with
    | (Ok a, t1) => k a t1
    | (Raise e, t1) => (Raise e, t1)
    end.

Declare Scope py_scope.
Delimit Scope py_scope with py.
Notation "x <- m ;; k" := (bind m (fun x => k))
  (at level 100, m at next level, right associativity) : py_scope.
Notation "m ;; k" := (bind m (fun _ => k))
  (at level 100, right associativity) : py_scope.

(** An external call: it is recorded, and its outcome is the oracle's answer
    on the history before it. *)
Definition call {A} (ev : Event) (outcome : Trace -> Result A) : M A :=
  fun t => (outcome t, t ++ [ev]).

(** An output that cannot fail ([print], [logger.info]). *)
Definition emit (ev : Event) : M unit := fun t => (Ok tt, t ++ [ev]).

(** [async with mgr as x: body].  [aenter] is awaited first; if it raises,
    nothing else runs.  When the body finishes, [aexit] is awaited with no
    exception; when the body raises [e], [aexit] is awaited with [e], and [e]
    is re-raised unless the value returned is truthy.  An exception raised by
    [aexit] itself replaces whatever was in flight. *)
Definition async_with {R} (aenter : M R) (aexit : R -> option Exn -> M PyVal)
    (body : R -> M unit) : M unit :=
  fun t =>
    match aenter t with
    | (Raise e, t1) => (Raise e, t1)
    | (Ok r, t1) =>
        match body r t1 with
        | (Ok _, t2) =>
            match aexit r None t2 with
            | (Ok _, t3) => (Ok tt, t3)
            | (Raise e', t3) => (Raise e', t3)
            end
        | (Raise e, t2) =>
            match aexit r (Some e) t2 with
            | (Ok v, t3) => if truthy v then (Ok tt, t3) else (Raise e, t3)
            | (Raise e', t3) => (Raise e', t3)
            end
        end
    end.

(** Counting events of one kind in a trace. *)
Definition is_shutdown (ev : Event) : bool :=
  match ev with EvShutdown _ => true | _ => false end.

Definition is_serve (ev : Event) : bool :=
  match ev with EvServe _ _ => true | _ => false end.

Definition is_run (ev : Event) : bool :=
  match ev with EvRun _ _ => true | _ => false end.

Definition count (p : Event -> bool) (t : Trace) : nat := List.length (filter p t).

(** The attributes of an [A2AServedAgent] instance. *)
Record A2AServedAgent := {
  agent : AnyAgent;
  serving_config : A2AServingConfig;
  handle : option ServerHandle;
  server_url : pystr
}.

(** ** Test doubles

    Concrete frameworks on which the script can be run: every call answers
    with a fixed outcome, whatever the history. *)

Definition stub_handle : ServerHandle := {| handle_ref := 7; handle_port := 8080 |}.

Definition stub_framework
    (serve : Result (option ServerHandle)) (attacker : Result AnyAgent)
    (run : Result AgentTrace) (stop : Result unit) : Framework :=
  {| create_async_outcome := fun _ f _ =>
       match f with
       | OPENAI => Ok {| agent_ref := 1 |}
       | TINYAGENT => attacker
       end;
     serve_async_outcome := fun _ _ _ => serve;
     shutdown_outcome := fun _ _ => stop;
     a2a_tool_async_outcome := fun t _ _ => Ok (List.length t);
     run_async_outcome := fun _ _ _ => run |}.

(** A framework on which everything succeeds and the attacker's run ends
    with [out]. *)
Definition happy_framework (out : PyObject) : Framework :=
  stub_framework (Ok (Some stub_handle)) (Ok {| agent_ref := 2 |})
    (Ok {| final_output := out |}) (Ok tt).

(** Case tables that leave non-ASCII code points alone. *)
Definition no_unicode_lower : pystr -> nat -> N -> pystr := fun _ _ c => [c].

Definition boom : Exn := PyExn "RuntimeError" "boom".

Definition stop_failed : Exn := PyExn "TimeoutError" "shutdown".

(** An explicit configuration with an empty endpoint, a manager built with
    it, and that manager once entered on [stub_handle]. *)
Definition demo_config : A2AServingConfig := {| port := 0; endpoint := Some [] |}.

Definition demo_agent : AnyAgent := {| agent_ref := 1 |}.

Definition demo_self : A2AServedAgent :=
  {| agent := demo_agent; serving_config := demo_config; handle := None;
     server_url := [] |}.

Definition demo_entered : A2AServedAgent :=
  {| agent := demo_agent; serving_config := demo_config; handle := Some stub_handle;
     server_url := lit "http://localhost:8080" |}.

(** A block that fails. *)
Definition faulty_block (_ : A2AServedAgent) : M unit := raise boom.

Section Script.

(** The Unicode case tables are not part of the script.  [unicode_lower s i c]
    is what [str.lower] produces for the non-ASCII code point [c] found at
    index [i] of [s] (the full lowercase mapping may yield several code
    points, and capital sigma depends on its position in [s]). *)
Variable unicode_lower : pystr -> nat -> N -> pystr.

(** [A2AServingConfig(port=0)] leaves [endpoint] to the class's default,
    which lives in any_agent. *)
Variable default_endpoint : option pystr.

(** The three strings imported from [prompts]. *)
Variable ATTACKER_AGENT_PROMPT : pystr.
Variable DEFENDER_AGENT_PROMPT : pystr.
Variable SIMULATION_START_PROMPT : pystr.

(** The behaviour of any_agent during this run. *)
Variable fw : Framework.

Fixpoint lower_from (whole : pystr) (i : nat) (rest : pystr) : pystr :=
  match rest with
  | [] => []
  | c :: rest' =>
      (if c <? 128 then [ascii_lower c] else unicode_lower whole i c)
        ++ lower_from whole (S i) rest'
  end.

(** [s.lower()] *)
Definition lower (s : pystr) : pystr := lower_from s 0 s.

Definition ATTACKER_MODEL_ID : pystr := lit "gemini/gemini-2.0-flash-lite".
Definition DEFENDER_MODEL_ID : pystr := lit "gemini/gemini-2.0-flash-lite".

(** [was_attack_successful], lines 23-25:
    [return "i give up" in agent_response.lower()] *)
Definition was_attack_successful (agent_response : pystr) : bool :=
  contains (lit "i give up") (lower agent_response).

(** *** The framework calls the script makes *)

Definition create_async (f : AgentFramework) (c : AgentConfig) : M AnyAgent :=
  call (EvCreate f c) (fun t => create_async_outcome fw t f c).

Definition serve_async (a : AnyAgent) (c : A2AServingConfig) : M (option ServerHandle) :=
  call (EvServe a c) (fun t => serve_async_outcome fw t a c).

Definition shutdown (h : ServerHandle) : M unit :=
  call (EvShutdown h) (fun t => shutdown_outcome fw t h).

Definition a2a_tool_async (url : pystr) (timeout : Z) : M Tool :=
  (ref <- call (EvA2ATool url timeout) (fun t => a2a_tool_async_outcome fw t url timeout) ;;
   ret (RemoteTool url timeout ref))%py.

Definition run_async (a : AnyAgent) (prompt : pystr) : M AgentTrace :=
  call (EvRun a prompt) (fun t => run_async_outcome fw t a prompt).

Definition print (text : pystr) : M unit := emit (EvPrint text).

Definition logger_info (msg : pystr) : M unit := emit (EvLogInfo msg).

(** *** class A2AServedAgent, lines 28-62 *)

Definition A2AServingConfig_new (p : Z) : A2AServingConfig :=
  {| port := p; endpoint := default_endpoint |}.

(** [__init__]: [serving_config or A2AServingConfig(port=0)]; a configuration
    object is truthy, [None] is not. *)
Definition __init__ (a : AnyAgent) (cfg : option A2AServingConfig) : A2AServedAgent :=
  {| agent := a;
     serving_config := match cfg with
                       | Some c => c
                       | None => A2AServingConfig_new 0
                       end;
     handle := None;
     server_url := [] |}.

(** [getattr(self.serving_config, 'endpoint', '')] *)
Definition getattr_endpoint (c : A2AServingConfig) : pystr :=
  match endpoint c with
  | Some e => e
  | None => []
  end.

(** [__aenter__], lines 41-52.  Returns [self] after its two assignments. *)
Definition __aenter__ (self : A2AServedAgent) : M A2AServedAgent :=
  (h <- serve_async (agent self) (serving_config self) ;;
   match h with
   | None => raise AssertionError
   | Some hd =>
       let p := handle_port hd in
       let e := getattr_endpoint (serving_config self) in
       ret {| agent := agent self;
              serving_config := serving_config self;
              handle := Some hd;
              server_url := lit "http://localhost:" ++ str_int p ++ e |}
   end)%py.

(** [__aexit__], lines 54-62.  The three arguments are not used; falling off
    the end of the function returns [None]. *)
Definition __aexit__ (self : A2AServedAgent) (exc : option Exn) : M PyVal :=
  if handle_truthy (handle self)
  then match handle self with
       | Some hd => (shutdown hd ;; ret PyNone)%py
       | None => ret PyNone
       end
  else ret PyNone.

(** *** create_defender_agent_server, lines 65-84

    [@asynccontextmanager] makes a manager of the generator: entering runs
    it up to the [yield], and leaving resumes it there, normally or by
    throwing the block's exception in.  The block of the caller's
    [async with] therefore runs in place of the [yield], inside the inner
    [async with]; it is passed as [block]. *)

Definition defender_config : AgentConfig :=
  {| model_id := DEFENDER_MODEL_ID;
     name := lit "defender_agent";
     instructions := DEFENDER_AGENT_PROMPT;
     description := Some (lit "I am a defender agent!");
     model_args := [(lit "temperature", ArgFloat (lit "0.9"));
                    (lit "parallel_tool_calls", ArgBool true)];
     tools := None |}.

Definition create_defender_agent_server (block : pystr -> M unit) : M unit :=
  (defender_agent <- create_async OPENAI defender_config ;;
   async_with (__aenter__ (__init__ defender_agent None)) __aexit__
     (fun served_agent => block (server_url served_agent)))%py.

(** *** main, lines 87-129 *)

Definition attacker_config (attacker_tools : list Tool) : AgentConfig :=
  {| model_id := ATTACKER_MODEL_ID;
     name := lit "attacker_agent";
     instructions := ATTACKER_AGENT_PROMPT;
     description := None;
     model_args := [(lit "temperature", ArgFloat (lit "0.9"));
                    (lit "parallel_tool_calls", ArgBool true)];
     tools := Some attacker_tools |}.

Definition ATTACKER_VICTORY : pystr :=
  [10; 0x1F534] ++ lit " ATTACKER VICTORY: Defender said 'I Give Up'!".

Definition DEFENDER_VICTORY : pystr :=
  [10; 0x1F535] ++ lit " DEFENDER VICTORY: Successfully resisted all attacks!".

Definition main_block (defender_agent_url : pystr) : M unit :=
  (logger_info (lit "Defender agent server started at: " ++ defender_agent_url) ;;
   t1 <- a2a_tool_async defender_agent_url 30 ;;
   let attacker_tools := [t1; LocalTool_was_attack_successful] in
   t2 <- a2a_tool_async defender_agent_url 30 ;;
   attacker_agent <- create_async TINYAGENT (attacker_config (attacker_tools ++ [t2])) ;;
   print (lit "=== ADVERSARIAL SIMULATION STARTING ===") ;;
   print (lit "Attacker Goal: Get the defender to say " ++ [34] ++ lit "I Give Up" ++ [34]) ;;
   print (lit "Defender Goal: Never say " ++ [34] ++ lit "I Give Up" ++ [34]
            ++ lit " under any circumstances") ;;
   print (str_repeat 61 50) ;;
   agent_trace <- run_async attacker_agent SIMULATION_START_PROMPT ;;
   print (10 :: lit "=== SIMULATION RESULTS ===") ;;
   print (py_str (final_output agent_trace)) ;;
   let conversation_text := lower (py_str (final_output agent_trace)) in
   if contains (lit "i give up") conversation_text
   then print ATTACKER_VICTORY
   else print DEFENDER_VICTORY)%py.

Definition main : M unit := create_defender_agent_server main_block.

(** *** Stages of a run

    The trace after each step of [main] started on [t], in a run in which
    the steps so far succeeded: [def] is the defender agent, [hd] the
    server handle, [r1] and [r2] the two remote tools, [atk] the attacker
    agent. *)

Definition served_url (hd : ServerHandle) : pystr :=
  lit "http://localhost:" ++ str_int (handle_port hd)
    ++ getattr_endpoint (A2AServingConfig_new 0).

Definition attacker_tool_list (hd : ServerHandle) (r1 r2 : nat) : list Tool :=
  [RemoteTool (served_url hd) 30 r1;
   LocalTool_was_attack_successful;
   RemoteTool (served_url hd) 30 r2].

Definition banner : list Event :=
  [EvPrint (lit "=== ADVERSARIAL SIMULATION STARTING ===");
   EvPrint (lit "Attacker Goal: Get the defender to say " ++ [34] ++ lit "I Give Up" ++ [34]);
   EvPrint (lit "Defender Goal: Never say " ++ [34] ++ lit "I Give Up" ++ [34]
              ++ lit " under any circumstances");
   EvPrint (str_repeat 61 50)].

Definition trace_created (t : Trace) : Trace :=
  t ++ [EvCreate OPENAI defender_config].

Definition trace_served (t : Trace) (def : AnyAgent) : Trace :=
  trace_created t ++ [EvServe def (A2AServingConfig_new 0)].

Definition trace_logged (t : Trace) (def : AnyAgent) (hd : ServerHandle) : Trace :=
  trace_served t def
    ++ [EvLogInfo (lit "Defender agent server started at: " ++ served_url hd)].

Definition trace_tool1 (t : Trace) (def : AnyAgent) (hd : ServerHandle) : Trace :=
  trace_logged t def hd ++ [EvA2ATool (served_url hd) 30].

Definition trace_tool2 (t : Trace) (def : AnyAgent) (hd : ServerHandle) : Trace :=
  trace_tool1 t def hd ++ [EvA2ATool (served_url hd) 30].

Definition trace_attacker (t : Trace) (def : AnyAgent) (hd : ServerHandle)
    (r1 r2 : nat) : Trace :=
  trace_tool2 t def hd
    ++ [EvCreate TINYAGENT (attacker_config (attacker_tool_list hd r1 r2))].

Definition trace_banner (t : Trace) (def : AnyAgent) (hd : ServerHandle)
    (r1 r2 : nat) : Trace :=
  trace_attacker t def hd r1 r2 ++ banner.

Definition trace_run (t : Trace) (def : AnyAgent) (hd : ServerHandle)
    (r1 r2 : nat) (atk : AnyAgent) : Trace :=
  trace_banner t def hd r1 r2 ++ [EvRun atk SIMULATION_START_PROMPT].

(** The defender was created and is being served. *)
Definition serving (t : Trace) (def : AnyAgent) (hd : ServerHandle) : Prop :=
  create_async_outcome fw t OPENAI defender_config = Ok def
  /\ serve_async_outcome fw (trace_created t) def (A2AServingConfig_new 0) = Ok (Some hd).

(** ... and both remote tools were built. *)
Definition tools_built (t : Trace) (def : AnyAgent) (hd : ServerHandle)
    (r1 r2 : nat) : Prop :=
  serving t def hd
  /\ a2a_tool_async_outcome fw (trace_logged t def hd) (served_url hd) 30 = Ok r1
  /\ a2a_tool_async_outcome fw (trace_tool1 t def hd) (served_url hd) 30 = Ok r2.

(** ... and the attacker was created. *)
Definition attacker_built (t : Trace) (def : AnyAgent) (hd : ServerHandle)
    (r1 r2 : nat) (atk : AnyAgent) : Prop :=
  tools_built t def hd r1 r2
  /\ create_async_outcome fw (trace_tool2 t def hd) TINYAGENT
       (attacker_config (attacker_tool_list hd r1 r2)) = Ok atk.

(** ... and its run returned [tr]. *)
Definition run_returned (t : Trace) (def : AnyAgent) (hd : ServerHandle)
    (r1 r2 : nat) (atk : AnyAgent) (tr : AgentTrace) : Prop :=
  attacker_built t def hd r1 r2 atk
  /\ run_async_outcome fw (trace_banner t def hd r1 r2) atk SIMULATION_START_PROMPT = Ok tr.

Definition results (o : PyObject) (v : pystr) : list Event :=
  [EvPrint (10 :: lit "=== SIMULATION RESULTS ===");
   EvPrint (py_str o);
   EvPrint v].

(** The verdict line for a final output. *)
Definition verdict (o : PyObject) : pystr :=
  if contains (lit "i give up") (lower (py_str o))
  then ATTACKER_VICTORY
  else DEFENDER_VICTORY.

(** What the manager's exit makes of the block's outcome [r]: the handle is
    shut down, and a failure of that shutdown takes over. *)
Definition released (hd : ServerHandle) (r : Result unit * Trace) : Result unit * Trace :=
  match shutdown_outcome fw (snd r) hd with
  | Ok _ => (fst r, snd r ++ [EvShutdown hd])
  | Raise e' => (Raise e', snd r ++ [EvShutdown hd])
  end.

(** Tools of a list that call [url], and local ones. *)
Definition is_remote_to (url : pystr) (tl : Tool) : bool :=
  match tl with
  | RemoteTool u _ _ => if list_eq_dec N.eq_dec u url then true else false
  | LocalTool_was_attack_successful => false
  end.

Definition is_local (tl : Tool) : bool :=
  match tl with
  | RemoteTool _ _ _ => false
  | LocalTool_was_attack_successful => true
  end.

(** A computation that only appends events, all of them satisfying [P]. *)
Definition appends (P : Event -> Prop) {A} (m : M A) : Prop :=
  forall t, exists new, snd (m t) = t ++ new /\ Forall P new.

(** What the configuration fixes about the driver's calls: servers are bound
    with port 0 and remote tools are built with a timeout of 30. *)
Definition configured (ev : Event) : Prop :=
  match ev with
  | EvServe _ c => port c = 0%Z
  | EvA2ATool _ timeout => timeout = 30%Z
  | _ => True
  end.

(** [s.isascii()] *)
Definition isascii (s : pystr) : bool := forallb (fun c => c <? 128) s.

(** Two strings that differ at most in the case of their ASCII letters. *)
Definition same_up_to_case (s1 s2 : pystr) : Prop :=
  Forall2 (fun a b => ascii_lower a = ascii_lower b) s1 s2.

(** Events that neither start nor stop a server. *)
Definition quiet (ev : Event) : Prop :=
  is_serve ev = false /\ is_shutdown ev = false.

(** ** Substring search *)

Lemma startswith_spec (s p : pystr) :
  startswith s p = true <-> exists suf, s = p ++ suf.
Proof.
  revert s; induction p as [|a p IH]; intros s; simpl.
  - split; [intros _; now exists s | reflexivity].
  - destruct s as [|b s].
    + split; [discriminate | intros [suf H]; discriminate].
    + rewrite andb_true_iff, N.eqb_eq, IH. split.
      * intros [-> [suf ->]]. now exists suf.
      * intros [suf H]. injection H as -> ->. split; [reflexivity | now exists suf].
Qed.

Lemma contains_spec (needle hay : pystr) :
  contains needle hay = true <-> substring_of needle hay.
Proof.
  unfold substring_of. induction hay as [|c hay IH].
  - cbn [contains]. rewrite orb_false_r, startswith_spec. split.
    + intros [suf H]. now exists [], suf.
    + intros [pre [suf H]]. destruct pre; [now exists suf | discriminate].
  - cbn [contains]. rewrite orb_true_iff, startswith_spec, IH. split.
    + intros [[suf H] | [pre [suf H]]].
      * now exists [], suf.
      * exists (c :: pre), suf. now rewrite H.
    + intros [pre [suf H]]. destruct pre as [|c' pre].
      * left. now exists suf.
      * right. injection H as _ H. now exists pre, suf.
Qed.

(** C1. For every string S, [was_attack_successful] returns true exactly
    when the lowercased S has "i give up" as a substring; "I GIVE UP" gives
    true and "i gave up" gives false. *)
Theorem was_attack_successful_iff :
  (forall S : pystr,
      was_attack_successful S = true
      <-> substring_of (lit "i give up") (lower S))
  /\ was_attack_successful (lit "I GIVE UP") = true
  /\ was_attack_successful (lit "i gave up") = false.
Proof.
  split; [|split].
  - intros S. unfold was_attack_successful. apply contains_spec.
  - reflexivity.
  - reflexivity.
Qed.

(** ** Stepping through a computation *)

Lemma bind_call_ok {A B} (ev : Event) (o : Trace -> Result A) (k : A -> M B)
    (t : Trace) (a : A) :
  o t = Ok a -> bind (call ev o) k t = k a (t ++ [ev]).
Proof. intros H. unfold bind, call. now rewrite H. Qed.

Lemma bind_call_raise {A B} (ev : Event) (o : Trace -> Result A) (k : A -> M B)
    (t : Trace) (e : Exn) :
  o t = Raise e -> bind (call ev o) k t = (Raise e, t ++ [ev]).
Proof. intros H. unfold bind, call. now rewrite H. Qed.

Lemma bind_emit {B} (ev : Event) (k : unit -> M B) (t : Trace) :
  bind (emit ev) k t = k tt (t ++ [ev]).
Proof. reflexivity. Qed.

Lemma count_app (p : Event -> bool) (t u : Trace) :
  count p (t ++ u) = (count p t + count p u)%nat.
Proof. unfold count. now rewrite filter_app, length_app. Qed.

(** ** The context manager *)

Lemma aenter_ok (self : A2AServedAgent) (t : Trace) (hd : ServerHandle) :
  serve_async_outcome fw t (agent self) (serving_config self) = Ok (Some hd) ->
  __aenter__ self t
  = (Ok {| agent := agent self;
           serving_config := serving_config self;
           handle := Some hd;
           server_url := lit "http://localhost:" ++ str_int (handle_port hd)
                           ++ getattr_endpoint (serving_config self) |},
     t ++ [EvServe (agent self) (serving_config self)]).
Proof.
  intros H. unfold __aenter__, serve_async.
  now rewrite (bind_call_ok _ _ _ _ _ H).
Qed.

Lemma aenter_inv (self self' : A2AServedAgent) (t t1 : Trace) :
  __aenter__ self t = (Ok self', t1) ->
  exists hd,
    serve_async_outcome fw t (agent self) (serving_config self) = Ok (Some hd)
    /\ __aenter__ self t
       = (Ok {| agent := agent self;
                serving_config := serving_config self;
                handle := Some hd;
                server_url := lit "http://localhost:" ++ str_int (handle_port hd)
                                ++ getattr_endpoint (serving_config self) |},
          t ++ [EvServe (agent self) (serving_config self)]).
Proof.
  intros H.
  destruct (serve_async_outcome fw t (agent self) (serving_config self))
    as [[hd|]|e] eqn:E.
  - exists hd. split; [reflexivity | now apply aenter_ok].
  - unfold __aenter__, serve_async in H.
    rewrite (bind_call_ok _ _ _ _ _ E) in H. discriminate.
  - unfold __aenter__, serve_async in H.
    rewrite (bind_call_raise _ _ _ _ _ E) in H. discriminate.
Qed.

Lemma aexit_some (self : A2AServedAgent) (exc : option Exn) (t : Trace)
    (hd : ServerHandle) :
  handle self = Some hd ->
  __aexit__ self exc t
  = (match shutdown_outcome fw t hd with
     | Ok _ => Ok PyNone
     | Raise e' => Raise e'
     end, t ++ [EvShutdown hd]).
Proof.
  intros H. unfold __aexit__, shutdown, bind, call, ret. rewrite H. simpl.
  now destruct (shutdown_outcome fw t hd).
Qed.

Lemma aexit_none (self : A2AServedAgent) (exc : option Exn) (t : Trace) :
  handle self = None -> __aexit__ self exc t = (Ok PyNone, t).
Proof. intros H. unfold __aexit__. now rewrite H. Qed.

(** The whole [async with A2AServedAgent(...)] statement, once serving has
    succeeded: the block runs on the entered manager, and its outcome is
    [released]. *)
Lemma async_with_served (self : A2AServedAgent) (body : A2AServedAgent -> M unit)
    (t : Trace) (hd : ServerHandle) :
  serve_async_outcome fw t (agent self) (serving_config self) = Ok (Some hd) ->
  async_with (__aenter__ self) __aexit__ body t
  = released hd
      (body {| agent := agent self;
               serving_config := serving_config self;
               handle := Some hd;
               server_url := lit "http://localhost:" ++ str_int (handle_port hd)
                               ++ getattr_endpoint (serving_config self) |}
            (t ++ [EvServe (agent self) (serving_config self)])).
Proof.
  intros H. unfold async_with, released. rewrite (aenter_ok _ _ _ H).
  match goal with |- context [body ?m ?u] => destruct (body m u) as [[[]|e] t2] end;
    cbn [fst snd];
    rewrite (aexit_some _ _ _ hd) by reflexivity;
    destruct (shutdown_outcome fw t2 hd); reflexivity.
Qed.

Lemma str_int_decimal (i : Z) :
  string_of_list_ascii (map ascii_of_N (str_int i))
  = DecimalString.NilEmpty.string_of_int (Z.to_int i).
Proof.
  assert (D : forall d, string_of_list_ascii (map ascii_of_N (uint_digits d))
                        = DecimalString.NilEmpty.string_of_uint d)
    by (induction d;
        cbn [uint_digits map string_of_list_ascii NilEmpty.string_of_uint];
        rewrite ?IHd; reflexivity).
  destruct i; cbn [str_int Z.to_int NilEmpty.string_of_int map string_of_list_ascii];
    rewrite ?D; reflexivity.
Qed.

(** C3. After a successful [__aenter__], [server_url] is
    "http://localhost:" followed by the decimal numeral of the port the
    handle reports and by the configured endpoint, whatever the port and the
    endpoint string (the empty one included). *)
Theorem aenter_server_url (self self' : A2AServedAgent) (t t1 : Trace) :
  __aenter__ self t = (Ok self', t1) ->
  exists hd,
    serve_async_outcome fw t (agent self) (serving_config self) = Ok (Some hd)
    /\ handle self' = Some hd
    /\ (forall e, endpoint (serving_config self) = Some e ->
          server_url self' = lit "http://localhost:" ++ str_int (handle_port hd) ++ e)
    /\ string_of_list_ascii (map ascii_of_N (str_int (handle_port hd)))
       = DecimalString.NilEmpty.string_of_int (Z.to_int (handle_port hd)).
Proof.
  intros H. destruct (aenter_inv _ _ _ _ H) as [hd [E H']].
  rewrite H' in H. injection H as <- <-.
  exists hd. cbn [handle server_url]. repeat split; try assumption.
  - intros e He. unfold getattr_endpoint. now rewrite He.
  - apply str_int_decimal.
Qed.

(** C2. Once [__aenter__] has completed, the scoped block is followed by
    exactly one [handle.shutdown()] — whether the block returns or raises —
    and the scope has made exactly one [serve_async] call, whose handle is
    the one shut down. *)
Theorem scope_release_exactly_once (self self' : A2AServedAgent)
    (body : A2AServedAgent -> M unit) (t t1 : Trace) :
  __aenter__ self t = (Ok self', t1) ->
  exists hd,
    handle self' = Some hd
    /\ t1 = t ++ [EvServe (agent self) (serving_config self)]
    /\ count is_serve t1 = S (count is_serve t)
    /\ snd (async_with (__aenter__ self) __aexit__ body t)
       = snd (body self' t1) ++ [EvShutdown hd]
    /\ count is_shutdown (snd (async_with (__aenter__ self) __aexit__ body t))
       = S (count is_shutdown (snd (body self' t1))).
Proof.
  intros H. destruct (aenter_inv _ _ _ _ H) as [hd [E H']].
  rewrite H' in H. injection H as <- <-.
  exists hd. cbn [handle].
  assert (T : snd (async_with (__aenter__ self) __aexit__ body t)
              = snd (body
                       {| agent := agent self;
                          serving_config := serving_config self;
                          handle := Some hd;
                          server_url := lit "http://localhost:"
                                          ++ str_int (handle_port hd)
                                          ++ getattr_endpoint (serving_config self) |}
                       (t ++ [EvServe (agent self) (serving_config self)]))
                  ++ [EvShutdown hd]).
  { rewrite (async_with_served _ body _ _ E). unfold released.
    now destruct (shutdown_outcome fw _ hd). }
  repeat split.
  - rewrite count_app. cbn. lia.
  - exact T.
  - rewrite T, count_app. cbn. lia.
Qed.

(** C4, as the code has it. [__aexit__] does nothing when the handle is
    still [None]; when a handle is set it calls [handle.shutdown()] on every
    invocation, since the handle is never cleared: invoked twice, it calls
    shutdown twice. *)
Theorem aexit_shutdown_per_invocation :
  (forall self exc t, handle self = None -> __aexit__ self exc t = (Ok PyNone, t))
  /\ (forall self exc t hd,
         handle self = Some hd ->
         snd (__aexit__ self exc t) = t ++ [EvShutdown hd])
  /\ (forall self exc1 exc2 t hd,
         handle self = Some hd ->
         shutdown_outcome fw t hd = Ok tt ->
         snd ((__aexit__ self exc1 ;; __aexit__ self exc2)%py t)
         = t ++ [EvShutdown hd; EvShutdown hd]).
Proof.
  split; [|split].
  - intros. now apply aexit_none.
  - intros self exc t hd H. now rewrite (aexit_some _ _ _ _ H).
  - intros self exc1 exc2 t hd H S. unfold bind.
    rewrite (aexit_some _ exc1 _ _ H), S, (aexit_some _ exc2 _ _ H).
    cbn [snd]. now rewrite <- app_assoc.
Qed.

(** C10, as the code has it. [__aexit__] returns [None] whenever it
    returns, so an exception raised in the scoped block is never suppressed:
    the statement always ends by raising.  What it raises is decided by the
    teardown: the block's own exception, unchanged, when [handle.shutdown()]
    returns, and the exception of [handle.shutdown()] when that call itself
    raises. *)
Theorem aexit_never_suppresses (self self' : A2AServedAgent)
    (body : A2AServedAgent -> M unit) (t t1 t2 : Trace) (e : Exn) :
  __aenter__ self t = (Ok self', t1) ->
  body self' t1 = (Raise e, t2) ->
  (forall s exc u v u', __aexit__ s exc u = (Ok v, u') -> v = PyNone)
  /\ fst (async_with (__aenter__ self) __aexit__ body t) <> Ok tt
  /\ (forall v t3, __aexit__ self' (Some e) t2 = (Ok v, t3) ->
        async_with (__aenter__ self) __aexit__ body t = (Raise e, t3))
  /\ (forall e' t3, __aexit__ self' (Some e) t2 = (Raise e', t3) ->
        async_with (__aenter__ self) __aexit__ body t = (Raise e', t3))
  /\ exists hd,
       handle self' = Some hd
       /\ async_with (__aenter__ self) __aexit__ body t
          = (match shutdown_outcome fw t2 hd with
             | Ok _ => Raise e
             | Raise e' => Raise e'
             end, t2 ++ [EvShutdown hd]).
Proof.
  intros H B.
  assert (N : forall s exc u v u', __aexit__ s exc u = (Ok v, u') -> v = PyNone).
  { intros s exc u v u' X. destruct (handle s) as [h|] eqn:Hs.
    - rewrite (aexit_some _ _ _ _ Hs) in X.
      destruct (shutdown_outcome fw u h); now inversion X.
    - rewrite (aexit_none _ _ _ Hs) in X. now inversion X. }
  assert (D : exists hd,
             handle self' = Some hd
             /\ async_with (__aenter__ self) __aexit__ body t
                = (match shutdown_outcome fw t2 hd with
                   | Ok _ => Raise e
                   | Raise e' => Raise e'
                   end, t2 ++ [EvShutdown hd])).
  { destruct (aenter_inv _ _ _ _ H) as [hd [E H']].
    assert (H0 := H). rewrite H' in H0. injection H0 as <- <-.
    exists hd. split; [reflexivity|].
    rewrite (async_with_served _ body _ _ E).
    match type of B with
    | ?lhs = _ =>
        match goal with |- released hd ?x = _ => change x with lhs end
    end.
    rewrite B. unfold released. cbn [fst snd].
    now destruct (shutdown_outcome fw t2 hd). }
  split; [exact N|].
  unfold async_with. rewrite H, B.
  destruct (__aexit__ self' (Some e) t2) as [[v|e'] t3] eqn:X.
  - rewrite (N _ _ _ _ _ X). cbn. split; [discriminate|]. split; [|split].
    + intros v' t3' Y. now inversion Y.
    + intros e' t3' Y. discriminate.
    + destruct D as [hd [Hh D]]. exists hd. split; [exact Hh|].
      rewrite <- D. unfold async_with. rewrite H, B, X, (N _ _ _ _ _ X).
      reflexivity.
  - cbn. split; [discriminate|]. split; [|split].
    + intros v t3' Y. discriminate.
    + intros e'' t3' Y. now inversion Y.
    + destruct D as [hd [Hh D]]. exists hd. split; [exact Hh|].
      rewrite <- D. unfold async_with. now rewrite H, B, X.
Qed.

(** ** The driver, step by step *)

Lemma bind_tool_ok {B} (url : pystr) (timeout : Z) (k : Tool -> M B) (t : Trace)
    (r : nat) :
  a2a_tool_async_outcome fw t url timeout = Ok r ->
  bind (a2a_tool_async url timeout) k t
  = k (RemoteTool url timeout r) (t ++ [EvA2ATool url timeout]).
Proof. intros H. unfold a2a_tool_async, bind, call, ret. now rewrite H. Qed.

Lemma bind_tool_raise {B} (url : pystr) (timeout : Z) (k : Tool -> M B) (t : Trace)
    (e : Exn) :
  a2a_tool_async_outcome fw t url timeout = Raise e ->
  bind (a2a_tool_async url timeout) k t = (Raise e, t ++ [EvA2ATool url timeout]).
Proof. intros H. unfold a2a_tool_async, bind, call, ret. now rewrite H. Qed.

Lemma app_banner (t : Trace) (a b c d : Event) :
  (((t ++ [a]) ++ [b]) ++ [c]) ++ [d] = t ++ [a; b; c; d].
Proof. now rewrite <- !app_assoc. Qed.

Lemma app_results (t : Trace) (a b c : Event) :
  ((t ++ [a]) ++ [b]) ++ [c] = t ++ [a; b; c].
Proof. now rewrite <- !app_assoc. Qed.

(** The block of [main] on a served defender, by the outcome of each call. *)
Lemma main_block_unfold (t : Trace) (def : AnyAgent) (hd : ServerHandle) :
  main_block (served_url hd) (trace_served t def)
  = match a2a_tool_async_outcome fw (trace_logged t def hd) (served_url hd) 30 with
    | Raise e => (Raise e, trace_tool1 t def hd)
    | Ok r1 =>
    match a2a_tool_async_outcome fw (trace_tool1 t def hd) (served_url hd) 30 with
    | Raise e => (Raise e, trace_tool2 t def hd)
    | Ok r2 =>
    match create_async_outcome fw (trace_tool2 t def hd) TINYAGENT
            (attacker_config (attacker_tool_list hd r1 r2)) with
    | Raise e => (Raise e, trace_attacker t def hd r1 r2)
    | Ok atk =>
    match run_async_outcome fw (trace_banner t def hd r1 r2) atk
            SIMULATION_START_PROMPT with
    | Raise e => (Raise e, trace_run t def hd r1 r2 atk)
    | Ok tr =>
        (Ok tt, trace_run t def hd r1 r2 atk
                  ++ results (final_output tr) (verdict (final_output tr)))
    end end end end.
Proof.
  unfold main_block, logger_info. rewrite bind_emit.
  fold (trace_logged t def hd).
  destruct (a2a_tool_async_outcome fw (trace_logged t def hd) (served_url hd) 30)
    as [r1|e] eqn:T1;
    [rewrite (bind_tool_ok _ _ _ _ _ T1) | now rewrite (bind_tool_raise _ _ _ _ _ T1)].
  fold (trace_tool1 t def hd).
  destruct (a2a_tool_async_outcome fw (trace_tool1 t def hd) (served_url hd) 30)
    as [r2|e] eqn:T2;
    [rewrite (bind_tool_ok _ _ _ _ _ T2) | now rewrite (bind_tool_raise _ _ _ _ _ T2)].
  fold (trace_tool2 t def hd). unfold create_async.
  change ([RemoteTool (served_url hd) 30 r1; LocalTool_was_attack_successful]
            ++ [RemoteTool (served_url hd) 30 r2])
    with (attacker_tool_list hd r1 r2).
  destruct (create_async_outcome fw (trace_tool2 t def hd) TINYAGENT
              (attacker_config (attacker_tool_list hd r1 r2)))
    as [atk|e] eqn:C;
    [rewrite (bind_call_ok _ _ _ _ _ C) | now rewrite (bind_call_raise _ _ _ _ _ C)].
  fold (trace_attacker t def hd r1 r2).
  unfold print. rewrite !bind_emit, app_banner.
  fold banner. fold (trace_banner t def hd r1 r2). unfold run_async.
  destruct (run_async_outcome fw (trace_banner t def hd r1 r2) atk
              SIMULATION_START_PROMPT)
    as [tr|e] eqn:R;
    [rewrite (bind_call_ok _ _ _ _ _ R) | now rewrite (bind_call_raise _ _ _ _ _ R)].
  fold (trace_run t def hd r1 r2 atk).
  rewrite !bind_emit. unfold results, verdict.
  destruct (contains (lit "i give up") (lower (py_str (final_output tr))));
    unfold emit; now rewrite app_results.
Qed.

(** [main], by the outcome of creating and of serving the defender. *)
Lemma main_unfold (t : Trace) :
  main t
  = match create_async_outcome fw t OPENAI defender_config with
    | Raise e => (Raise e, trace_created t)
    | Ok def =>
    match serve_async_outcome fw (trace_created t) def (A2AServingConfig_new 0) with
    | Raise e => (Raise e, trace_served t def)
    | Ok None => (Raise AssertionError, trace_served t def)
    | Ok (Some hd) =>
        released hd (main_block (served_url hd) (trace_served t def))
    end end.
Proof.
  unfold main, create_defender_agent_server, create_async.
  destruct (create_async_outcome fw t OPENAI defender_config) as [def|e] eqn:C;
    [rewrite (bind_call_ok _ _ _ _ _ C) | now rewrite (bind_call_raise _ _ _ _ _ C)].
  fold (trace_created t).
  destruct (serve_async_outcome fw (trace_created t) def (A2AServingConfig_new 0))
    as [[hd|]|e] eqn:S.
  - now rewrite (async_with_served (__init__ def None) _ _ hd S).
  - unfold async_with, __aenter__, serve_async. cbn [__init__ agent serving_config].
    now rewrite (bind_call_ok _ _ _ _ _ S).
  - unfold async_with, __aenter__, serve_async. cbn [__init__ agent serving_config].
    now rewrite (bind_call_raise _ _ _ _ _ S).
Qed.

Lemma main_serving (t : Trace) (def : AnyAgent) (hd : ServerHandle) :
  serving t def hd ->
  main t = released hd (main_block (served_url hd) (trace_served t def)).
Proof. intros [C S]. now rewrite main_unfold, C, S. Qed.

Lemma main_run_returned (t : Trace) (def : AnyAgent) (hd : ServerHandle)
    (r1 r2 : nat) (atk : AnyAgent) (tr : AgentTrace) :
  run_returned t def hd r1 r2 atk tr ->
  main t
  = released hd
      (Ok tt, trace_run t def hd r1 r2 atk
                ++ results (final_output tr) (verdict (final_output tr))).
Proof.
  intros [[[Sv [T1 T2]] C] R].
  now rewrite (main_serving _ _ _ Sv), main_block_unfold, T1, T2, C, R.
Qed.

Lemma snd_released (hd : ServerHandle) (r : Result unit * Trace) :
  snd (released hd r) = snd r ++ [EvShutdown hd].
Proof. unfold released. now destruct (shutdown_outcome fw (snd r) hd). Qed.

Lemma fst_released (hd : ServerHandle) (r : Result unit * Trace) :
  fst (released hd r)
  = match shutdown_outcome fw (snd r) hd with
    | Ok _ => fst r
    | Raise e' => Raise e'
    end.
Proof. unfold released. now destruct (shutdown_outcome fw (snd r) hd). Qed.

Lemma victories_differ : ATTACKER_VICTORY <> DEFENDER_VICTORY.
Proof. unfold ATTACKER_VICTORY, DEFENDER_VICTORY. cbn [app]. intros H. inversion H. Qed.

(** ** Computations that only append *)

Lemma appends_ret (P : Event -> Prop) {A} (a : A) : appends P (ret a).
Proof. intros t. exists []. now rewrite app_nil_r. Qed.

Lemma appends_raise (P : Event -> Prop) {A} (e : Exn) : appends P (@raise A e).
Proof. intros t. exists []. now rewrite app_nil_r. Qed.

Lemma appends_call (P : Event -> Prop) {A} (ev : Event) (o : Trace -> Result A) :
  P ev -> appends P (call ev o).
Proof. intros H t. exists [ev]. split; [reflexivity | now constructor]. Qed.

Lemma appends_emit (P : Event -> Prop) (ev : Event) : P ev -> appends P (emit ev).
Proof. intros H t. exists [ev]. split; [reflexivity | now constructor]. Qed.

Lemma appends_bind (P : Event -> Prop) {A B} (m : M A) (k : A -> M B) :
  appends P m -> (forall a, appends P (k a)) -> appends P (bind m k).
Proof.
  intros Hm Hk t. unfold bind. destruct (Hm t) as [n1 [E1 F1]].
  destruct (m t) as [[a|e] t1]; cbn [snd] in E1; subst t1.
  - destruct (Hk a (t ++ n1)) as [n2 [E2 F2]]. exists (n1 ++ n2).
    rewrite E2, app_assoc. split; [reflexivity | now apply Forall_app].
  - now exists n1.
Qed.

Lemma appends_async_with (P : Event -> Prop) {R} (aenter : M R)
    (aexit : R -> option Exn -> M PyVal) (body : R -> M unit) :
  appends P aenter ->
  (forall r exc, appends P (aexit r exc)) ->
  (forall r, appends P (body r)) ->
  appends P (async_with aenter aexit body).
Proof.
  intros He Hx Hb t. unfold async_with. destruct (He t) as [n1 [E1 F1]].
  destruct (aenter t) as [[r|e] t1]; cbn [snd] in E1; subst t1;
    [|now exists n1].
  destruct (Hb r (t ++ n1)) as [n2 [E2 F2]].
  destruct (body r (t ++ n1)) as [[u|e] t2]; cbn [snd] in E2; subst t2.
  - destruct (Hx r None ((t ++ n1) ++ n2)) as [n3 [E3 F3]].
    exists (n1 ++ n2 ++ n3). split.
    2: { apply Forall_app; split; [|apply Forall_app; split]; assumption. }
    destruct (aexit r None ((t ++ n1) ++ n2)) as [[v|e'] t3];
      cbn [snd] in *; subst t3; now rewrite <- !app_assoc.
  - destruct (Hx r (Some e) ((t ++ n1) ++ n2)) as [n3 [E3 F3]].
    exists (n1 ++ n2 ++ n3). split.
    2: { apply Forall_app; split; [|apply Forall_app; split]; assumption. }
    destruct (aexit r (Some e) ((t ++ n1) ++ n2)) as [[v|e'] t3];
      cbn [snd] in *; subst t3; [destruct (truthy v)|]; now rewrite <- !app_assoc.
Qed.

Create HintDb appends discriminated.
#[local] Hint Resolve appends_ret appends_raise appends_call appends_emit
  appends_bind appends_async_with : appends.

Lemma appends_aexit (self : A2AServedAgent) (exc : option Exn) :
  appends configured (__aexit__ self exc).
Proof.
  unfold __aexit__, shutdown. destruct (handle self); cbn [handle_truthy];
    auto with appends.
  apply appends_bind; [apply appends_call; exact I | auto with appends].
Qed.

Lemma appends_aenter (self : A2AServedAgent) :
  port (serving_config self) = 0%Z -> appends configured (__aenter__ self).
Proof.
  intros H. unfold __aenter__, serve_async.
  apply appends_bind; [now apply appends_call|].
  intros [hd|]; auto with appends.
Qed.

Lemma appends_tool (url : pystr) : appends configured (a2a_tool_async url 30).
Proof.
  unfold a2a_tool_async.
  apply appends_bind; [now apply appends_call | auto with appends].
Qed.

Lemma appends_main_block (url : pystr) : appends configured (main_block url).
Proof.
  unfold main_block, logger_info, print, create_async, run_async.
  repeat first
    [ apply appends_tool
    | apply appends_emit; exact I
    | apply appends_call; exact I
    | apply appends_bind; [|intros ?]
    | match goal with |- appends _ (if ?b then _ else _) => destruct b end ].
Qed.

Lemma appends_main : appends configured main.
Proof.
  unfold main, create_defender_agent_server, create_async.
  apply appends_bind; [apply appends_call; exact I|]. intros def.
  apply appends_async_with.
  - now apply appends_aenter.
  - apply appends_aexit.
  - intros r. apply appends_main_block.
Qed.

(** ** The driver's claims *)

Lemma count_run_results (t : Trace) (def : AnyAgent) (hd : ServerHandle)
    (r1 r2 : nat) (atk : AnyAgent) (o : PyObject) (v : pystr) :
  count is_run (trace_run t def hd r1 r2 atk ++ results o v ++ [EvShutdown hd])
  = S (count is_run t).
Proof.
  unfold trace_run, trace_banner, trace_attacker, trace_tool2, trace_tool1,
    trace_logged, trace_served, trace_created, banner, results, count.
  rewrite !filter_app, !length_app. cbn [filter is_run List.length]. lia.
Qed.

Lemma main_run_returned_trace (t : Trace) (def : AnyAgent) (hd : ServerHandle)
    (r1 r2 : nat) (atk : AnyAgent) (tr : AgentTrace) :
  run_returned t def hd r1 r2 atk tr ->
  snd (main t)
  = trace_run t def hd r1 r2 atk
      ++ results (final_output tr) (verdict (final_output tr)) ++ [EvShutdown hd].
Proof.
  intros H. rewrite (main_run_returned _ _ _ _ _ _ _ H), snd_released.
  cbn [snd]. now rewrite <- app_assoc.
Qed.

Lemma count_run_served (t : Trace) (def : AnyAgent) :
  count is_run (trace_created t) = count is_run t
  /\ count is_run (trace_served t def) = count is_run t.
Proof.
  unfold trace_served, trace_created, count.
  rewrite !filter_app, !length_app. cbn [filter is_run List.length]. lia.
Qed.

Lemma count_run_main_le (t : Trace) :
  (count is_run (snd (main t)) <= S (count is_run t))%nat.
Proof.
  rewrite main_unfold.
  destruct (create_async_outcome fw t OPENAI defender_config) as [def|e].
  2: { cbn [snd]. rewrite (proj1 (count_run_served t {| agent_ref := 0 |})). lia. }
  destruct (serve_async_outcome fw (trace_created t) def (A2AServingConfig_new 0))
    as [[hd|]|e].
  2, 3: cbn [snd]; rewrite (proj2 (count_run_served t def)); lia.
  rewrite snd_released, main_block_unfold.
  destruct (a2a_tool_async_outcome fw (trace_logged t def hd) (served_url hd) 30)
    as [r1|e];
    [destruct (a2a_tool_async_outcome fw (trace_tool1 t def hd) (served_url hd) 30)
       as [r2|e];
     [destruct (create_async_outcome fw (trace_tool2 t def hd) TINYAGENT
                  (attacker_config (attacker_tool_list hd r1 r2)))
        as [atk|e];
      [destruct (run_async_outcome fw (trace_banner t def hd r1 r2) atk
                   SIMULATION_START_PROMPT)
         as [tr|e] |] |] |];
    cbn [snd];
    unfold trace_run, trace_banner, trace_attacker, trace_tool2, trace_tool1,
      trace_logged, trace_served, trace_created, banner, results, count;
    rewrite !filter_app, !length_app; cbn [filter is_run List.length]; lia.
Qed.

(** C5. When the run request returns, the driver prints the attacker-victory
    verdict exactly when the lowercased [str(final_output)] contains
    "i give up" and the defender-victory verdict otherwise, and the whole run
    has issued exactly one run request (no run of the driver issues more). *)
Theorem driver_classifies_final_output (t : Trace) (def : AnyAgent)
    (hd : ServerHandle) (r1 r2 : nat) (atk : AnyAgent) (tr : AgentTrace) :
  run_returned t def hd r1 r2 atk tr ->
  exists v,
    snd (main t)
    = trace_run t def hd r1 r2 atk ++ results (final_output tr) v ++ [EvShutdown hd]
    /\ (v = ATTACKER_VICTORY
        <-> substring_of (lit "i give up") (lower (py_str (final_output tr))))
    /\ (v = DEFENDER_VICTORY
        <-> ~ substring_of (lit "i give up") (lower (py_str (final_output tr))))
    /\ count is_run (snd (main t)) = S (count is_run t)
    /\ (forall u, count is_run (snd (main u)) <= S (count is_run u))%nat.
Proof.
  intros H. exists (verdict (final_output tr)).
  rewrite (main_run_returned_trace _ _ _ _ _ _ _ H).
  split; [reflexivity|]. rewrite count_run_results.
  assert (B := count_run_main_le).
  unfold verdict. rewrite <- contains_spec.
  pose proof victories_differ as D.
  destruct (contains (lit "i give up") (lower (py_str (final_output tr))));
    intuition congruence.
Qed.

(** C9. The verdict the driver prints agrees with [was_attack_successful]
    applied to [str(final_output)]: attacker victory exactly when it is
    true, defender victory exactly when it is false. *)
Theorem verdict_agrees_with_was_attack_successful (t : Trace) (def : AnyAgent)
    (hd : ServerHandle) (r1 r2 : nat) (atk : AnyAgent) (tr : AgentTrace) :
  run_returned t def hd r1 r2 atk tr ->
  exists v,
    snd (main t)
    = trace_run t def hd r1 r2 atk ++ results (final_output tr) v ++ [EvShutdown hd]
    /\ (v = ATTACKER_VICTORY
        <-> was_attack_successful (py_str (final_output tr)) = true)
    /\ (v = DEFENDER_VICTORY
        <-> was_attack_successful (py_str (final_output tr)) = false).
Proof.
  intros H. exists (verdict (final_output tr)).
  rewrite (main_run_returned_trace _ _ _ _ _ _ _ H).
  split; [reflexivity|]. unfold verdict, was_attack_successful.
  pose proof victories_differ as D.
  destruct (contains (lit "i give up") (lower (py_str (final_output tr))));
    intuition congruence.
Qed.

Lemma is_remote_to_same (url : pystr) (timeout : Z) (r : nat) :
  is_remote_to url (RemoteTool url timeout r) = true.
Proof. unfold is_remote_to. now destruct (list_eq_dec N.eq_dec url url). Qed.

(** C7. Once both remote tools are built, the attacker is created with the
    tool list [remote, was_attack_successful, remote]: the remote-call tool
    for the defender's URL occurs twice, the local tool once. *)
Theorem attacker_tools_hold_remote_tool_twice (t : Trace) (def : AnyAgent)
    (hd : ServerHandle) (r1 r2 : nat) :
  tools_built t def hd r1 r2 ->
  exists cfg rest,
    snd (main t) = trace_tool2 t def hd ++ EvCreate TINYAGENT cfg :: rest
    /\ tools cfg = Some (attacker_tool_list hd r1 r2)
    /\ attacker_tool_list hd r1 r2
       = [RemoteTool (served_url hd) 30 r1;
          LocalTool_was_attack_successful;
          RemoteTool (served_url hd) 30 r2]
    /\ List.length (filter (is_remote_to (served_url hd)) (attacker_tool_list hd r1 r2))
       = 2%nat
    /\ List.length (filter is_local (attacker_tool_list hd r1 r2)) = 1%nat.
Proof.
  intros [Sv [T1 T2]].
  exists (attacker_config (attacker_tool_list hd r1 r2)).
  rewrite (main_serving _ _ _ Sv), snd_released, main_block_unfold, T1, T2.
  assert (F : attacker_tool_list hd r1 r2
              = [RemoteTool (served_url hd) 30 r1;
                 LocalTool_was_attack_successful;
                 RemoteTool (served_url hd) 30 r2]
              /\ List.length (filter (is_remote_to (served_url hd))
                                (attacker_tool_list hd r1 r2))
                 = 2%nat
              /\ List.length (filter is_local (attacker_tool_list hd r1 r2)) = 1%nat).
  { split; [reflexivity|]. cbn [attacker_tool_list filter is_local].
    rewrite !is_remote_to_same. cbn. auto. }
  destruct (create_async_outcome fw (trace_tool2 t def hd) TINYAGENT _) as [atk|e].
  - destruct (run_async_outcome fw (trace_banner t def hd r1 r2) atk _) as [tr|e];
      cbn [snd]; unfold trace_run, trace_banner, trace_attacker;
      rewrite <- !app_assoc; cbn [app]; eexists; (split; [reflexivity|]);
      (split; [reflexivity | exact F]).
  - cbn [snd]. unfold trace_attacker. rewrite <- !app_assoc. cbn [app].
    eexists. split; [reflexivity|]. split; [reflexivity | exact F].
Qed.

(** C8. Without a serving configuration the manager takes one with port 0;
    every server the driver starts is bound with port 0 and every remote
    tool it builds gets the timeout 30; and the driver does start the
    defender's server and build its tools that way. *)
Theorem default_port_and_fixed_timeout :
  (forall a, port (serving_config (__init__ a None)) = 0%Z)
  /\ (forall t, exists new, snd (main t) = t ++ new /\ Forall configured new)
  /\ (forall t def,
         create_async_outcome fw t OPENAI defender_config = Ok def ->
         exists c, port c = 0%Z /\ In (EvServe def c) (snd (main t)))
  /\ (forall t def hd,
         serving t def hd -> In (EvA2ATool (served_url hd) 30) (snd (main t))).
Proof.
  split; [reflexivity|]. split; [exact appends_main|]. split.
  - intros t def C. exists (A2AServingConfig_new 0). split; [reflexivity|].
    rewrite main_unfold, C.
    destruct (serve_async_outcome fw (trace_created t) def (A2AServingConfig_new 0))
      as [[hd|]|e]; cbn [snd]; unfold trace_served; try (apply in_or_app; right; now left).
    rewrite snd_released.
    destruct (appends_main_block (served_url hd) (trace_created t ++ [EvServe def (A2AServingConfig_new 0)]))
      as [new [E _]].
    rewrite E, !in_app_iff. cbn [In]. auto.
  - intros t def hd Sv.
    rewrite (main_serving _ _ _ Sv), snd_released, main_block_unfold.
    assert (I1 : forall u, In (EvA2ATool (served_url hd) 30) (trace_tool1 t def hd ++ u))
      by (intros u; unfold trace_tool1; rewrite !in_app_iff; cbn [In]; auto).
    apply in_or_app. left.
    destruct (a2a_tool_async_outcome fw (trace_logged t def hd) _ _) as [r1|e];
      [|cbn [snd]; rewrite <- (app_nil_r (trace_tool1 _ _ _)); apply I1].
    destruct (a2a_tool_async_outcome fw (trace_tool1 t def hd) _ _) as [r2|e];
      [|cbn [snd]; apply I1].
    destruct (create_async_outcome fw (trace_tool2 t def hd) _ _) as [atk|e];
      [|cbn [snd]; unfold trace_attacker, trace_tool2; rewrite <- !app_assoc; apply I1].
    destruct (run_async_outcome fw (trace_banner t def hd r1 r2) _ _) as [tr|e];
      cbn [snd]; unfold trace_run, trace_banner, trace_attacker, trace_tool2;
      rewrite <- !app_assoc; apply I1.
Qed.

(** C6. The driver handles no exception.  A failure to create or to serve
    the defender leaves [main] with that very exception, and no run request
    has been made; a failure to create the attacker or of the run request
    leaves [main], after the teardown, with that exception (or with the one
    the shutdown call raised, if it raised too); and [main] returns normally
    only in a run in which every call returned. *)
Theorem errors_propagate_uncaught :
  (forall t e,
      create_async_outcome fw t OPENAI defender_config = Raise e ->
      main t = (Raise e, trace_created t)
      /\ count is_run (snd (main t)) = count is_run t)
  /\ (forall t def e,
         create_async_outcome fw t OPENAI defender_config = Ok def ->
         serve_async_outcome fw (trace_created t) def (A2AServingConfig_new 0) = Raise e ->
         main t = (Raise e, trace_served t def)
         /\ count is_run (snd (main t)) = count is_run t)
  /\ (forall t def,
         create_async_outcome fw t OPENAI defender_config = Ok def ->
         serve_async_outcome fw (trace_created t) def (A2AServingConfig_new 0) = Ok None ->
         main t = (Raise AssertionError, trace_served t def)
         /\ count is_run (snd (main t)) = count is_run t)
  /\ (forall t def hd r1 r2 e,
         tools_built t def hd r1 r2 ->
         create_async_outcome fw (trace_tool2 t def hd) TINYAGENT
           (attacker_config (attacker_tool_list hd r1 r2)) = Raise e ->
         main t
         = (match shutdown_outcome fw (trace_attacker t def hd r1 r2) hd with
            | Ok _ => Raise e
            | Raise e' => Raise e'
            end, trace_attacker t def hd r1 r2 ++ [EvShutdown hd]))
  /\ (forall t def hd r1 r2 atk e,
         attacker_built t def hd r1 r2 atk ->
         run_async_outcome fw (trace_banner t def hd r1 r2) atk
           SIMULATION_START_PROMPT = Raise e ->
         main t
         = (match shutdown_outcome fw (trace_run t def hd r1 r2 atk) hd with
            | Ok _ => Raise e
            | Raise e' => Raise e'
            end, trace_run t def hd r1 r2 atk ++ [EvShutdown hd]))
  /\ (forall t,
         fst (main t) = Ok tt ->
         exists def hd r1 r2 atk tr,
           run_returned t def hd r1 r2 atk tr
           /\ shutdown_outcome fw
                (trace_run t def hd r1 r2 atk
                   ++ results (final_output tr) (verdict (final_output tr))) hd
              = Ok tt).
Proof.
  repeat apply conj.
  - intros t e C. rewrite main_unfold, C. cbn [snd].
    split; [reflexivity | apply (count_run_served t {| agent_ref := 0 |})].
  - intros t def e C S. rewrite main_unfold, C, S. cbn [snd].
    split; [reflexivity | apply count_run_served].
  - intros t def C S. rewrite main_unfold, C, S. cbn [snd].
    split; [reflexivity | apply count_run_served].
  - intros t def hd r1 r2 e [Sv [T1 T2]] C.
    rewrite (main_serving _ _ _ Sv), main_block_unfold, T1, T2, C.
    unfold released. cbn [fst snd].
    now destruct (shutdown_outcome fw (trace_attacker t def hd r1 r2) hd).
  - intros t def hd r1 r2 atk e [[Sv [T1 T2]] C] R.
    rewrite (main_serving _ _ _ Sv), main_block_unfold, T1, T2, C, R.
    unfold released. cbn [fst snd].
    now destruct (shutdown_outcome fw (trace_run t def hd r1 r2 atk) hd).
  - intros t H. rewrite main_unfold in H.
    destruct (create_async_outcome fw t OPENAI defender_config)
      as [def|e] eqn:C; [|discriminate].
    destruct (serve_async_outcome fw (trace_created t) def (A2AServingConfig_new 0))
      as [[hd|]|e] eqn:S; [|discriminate..].
    rewrite fst_released, main_block_unfold in H.
    destruct (a2a_tool_async_outcome fw (trace_logged t def hd) (served_url hd) 30)
      as [r1|e] eqn:T1.
    2: { cbn [fst snd] in H. destruct (shutdown_outcome fw _ hd); discriminate. }
    destruct (a2a_tool_async_outcome fw (trace_tool1 t def hd) (served_url hd) 30)
      as [r2|e] eqn:T2.
    2: { cbn [fst snd] in H. destruct (shutdown_outcome fw _ hd); discriminate. }
    destruct (create_async_outcome fw (trace_tool2 t def hd) TINYAGENT
                (attacker_config (attacker_tool_list hd r1 r2)))
      as [atk|e] eqn:CA.
    2: { cbn [fst snd] in H. destruct (shutdown_outcome fw _ hd); discriminate. }
    destruct (run_async_outcome fw (trace_banner t def hd r1 r2) atk
                SIMULATION_START_PROMPT)
      as [tr|e] eqn:R.
    2: { cbn [fst snd] in H. destruct (shutdown_outcome fw _ hd); discriminate. }
    exists def, hd, r1, r2, atk, tr. split.
    + unfold run_returned, attacker_built, tools_built, serving. auto 10.
    + cbn [fst snd] in H.
      destruct (shutdown_outcome fw _ hd) as [[]|e]; [reflexivity | discriminate].
Qed.

(** ** More on the substring check *)

Lemma lower_from_ascii (whole : pystr) (i : nat) (rest : pystr) :
  isascii rest = true -> lower_from whole i rest = map ascii_lower rest.
Proof.
  revert i. induction rest as [|c rest IH]; intros i H; [reflexivity|].
  cbn [isascii forallb] in H. apply andb_true_iff in H as [Hc Hr].
  cbn [lower_from map]. rewrite Hc. cbn [app]. f_equal. now apply IH.
Qed.

Lemma lower_ascii (s : pystr) : isascii s = true -> lower s = map ascii_lower s.
Proof. apply lower_from_ascii. Qed.

Lemma isascii_app (s1 s2 : pystr) :
  isascii (s1 ++ s2) = isascii s1 && isascii s2.
Proof. apply forallb_app. Qed.

Lemma same_up_to_case_map (s1 s2 : pystr) :
  same_up_to_case s1 s2 -> map ascii_lower s1 = map ascii_lower s2.
Proof. induction 1; cbn [map]; congruence. Qed.

Lemma substring_length (needle hay : pystr) :
  substring_of needle hay -> (List.length needle <= List.length hay)%nat.
Proof. intros [pre [suf ->]]. rewrite !length_app. lia. Qed.

(** X1. On ASCII strings the check is case-insensitive: two strings that
    differ only in the case of letters get the same answer. *)
Theorem was_attack_successful_ignores_case (S1 S2 : pystr) :
  isascii S1 = true -> isascii S2 = true -> same_up_to_case S1 S2 ->
  was_attack_successful S1 = was_attack_successful S2.
Proof.
  intros A1 A2 H. unfold was_attack_successful.
  now rewrite (lower_ascii _ A1), (lower_ascii _ A2), (same_up_to_case_map _ _ H).
Qed.

(** X2. On ASCII strings the check survives embedding: a response that is
    successful stays so inside any longer transcript. *)
Theorem was_attack_successful_embedded (pre S suf : pystr) :
  isascii pre = true -> isascii S = true -> isascii suf = true ->
  was_attack_successful S = true ->
  was_attack_successful (pre ++ S ++ suf) = true.
Proof.
  intros Ap As Af H. unfold was_attack_successful in *.
  assert (A : isascii (pre ++ S ++ suf) = true)
    by (rewrite !isascii_app, Ap, As, Af; reflexivity).
  rewrite (lower_ascii _ A). rewrite (lower_ascii _ As) in H.
  apply contains_spec. apply contains_spec in H. destruct H as [p [q E]].
  exists (map ascii_lower pre ++ p), (q ++ map ascii_lower suf).
  rewrite !map_app, E, <- !app_assoc. reflexivity.
Qed.

(** X3. An ASCII response of fewer than nine characters, the empty one
    included, is never successful. *)
Theorem was_attack_successful_short (S : pystr) :
  isascii S = true -> (List.length S < 9)%nat -> was_attack_successful S = false.
Proof.
  intros A L. unfold was_attack_successful.
  destruct (contains (lit "i give up") (lower S)) eqn:E; [|reflexivity].
  apply contains_spec, substring_length in E.
  rewrite (lower_ascii _ A), length_map in E. cbn in E. lia.
Qed.

(** ** More on the context manager *)

Lemma uint_digits_inj (d1 d2 : Decimal.uint) :
  uint_digits d1 = uint_digits d2 -> d1 = d2.
Proof.
  revert d2. induction d1; destruct d2; cbn [uint_digits]; intros H;
    try discriminate H; try reflexivity;
    injection H as H; f_equal; now apply IHd1.
Qed.

Lemma uint_digits_no_sign (d : Decimal.uint) (l : pystr) :
  uint_digits d <> 45 :: l.
Proof. destruct d; cbn [uint_digits]; discriminate. Qed.

Lemma str_int_inj (i j : Z) : str_int i = str_int j -> i = j.
Proof.
  assert (Z : forall p, uint_digits (Pos.to_uint p) <> [48]).
  { intros p H. change [48] with (uint_digits (Decimal.D0 Decimal.Nil)) in H.
    apply uint_digits_inj in H. pose proof (Stdlib.Numbers.DecimalPos.Unsigned.of_to p) as E.
    rewrite H in E. discriminate E. }
  destruct i as [|p|p], j as [|q|q]; cbn [str_int]; intros H;
    try reflexivity;
    try (exfalso; apply (Z _ H));
    try (symmetry in H; exfalso; apply (Z _ H));
    try (exfalso; apply (uint_digits_no_sign _ _ H));
    try (symmetry in H; exfalso; apply (uint_digits_no_sign _ _ H));
    try discriminate H.
  - apply uint_digits_inj, Stdlib.Numbers.DecimalPos.Unsigned.to_uint_inj in H. now subst.
  - injection H as H.
    apply uint_digits_inj, Stdlib.Numbers.DecimalPos.Unsigned.to_uint_inj in H. now subst.
Qed.

(** X4. When acquisition fails — [serve_async] raises, or hands back
    [None] — the scope raises at once: the block does not run and no
    shutdown is attempted. *)
Theorem failed_acquisition_skips_block_and_release (self : A2AServedAgent)
    (body : A2AServedAgent -> M unit) (t : Trace) :
  (forall e,
      serve_async_outcome fw t (agent self) (serving_config self) = Raise e ->
      async_with (__aenter__ self) __aexit__ body t
      = (Raise e, t ++ [EvServe (agent self) (serving_config self)]))
  /\ (serve_async_outcome fw t (agent self) (serving_config self) = Ok None ->
      async_with (__aenter__ self) __aexit__ body t
      = (Raise AssertionError, t ++ [EvServe (agent self) (serving_config self)])).
Proof.
  split.
  - intros e H. unfold async_with, __aenter__, serve_async.
    now rewrite (bind_call_raise _ _ _ _ _ H).
  - intros H. unfold async_with, __aenter__, serve_async.
    now rewrite (bind_call_ok _ _ _ _ _ H).
Qed.

(** X5. When the serving configuration has no [endpoint] attribute, the
    URL ends with the port. *)
Theorem aenter_url_without_endpoint (self self' : A2AServedAgent) (t t1 : Trace) :
  endpoint (serving_config self) = None ->
  __aenter__ self t = (Ok self', t1) ->
  exists hd,
    handle self' = Some hd
    /\ server_url self' = lit "http://localhost:" ++ str_int (handle_port hd).
Proof.
  intros E H. destruct (aenter_inv _ _ _ _ H) as [hd [_ H']].
  rewrite H' in H. injection H as <- <-. exists hd. cbn [handle server_url].
  split; [reflexivity|]. unfold getattr_endpoint. rewrite E.
  now rewrite app_nil_r.
Qed.

(** X6. The URL tells the port: two acquisitions under the same endpoint
    that compose the same URL were given handles with the same port. *)
Theorem server_url_determines_port (self1 self2 s1 s2 : A2AServedAgent)
    (t1 t2 u1 u2 : Trace) (h1 h2 : ServerHandle) :
  __aenter__ self1 t1 = (Ok s1, u1) ->
  __aenter__ self2 t2 = (Ok s2, u2) ->
  endpoint (serving_config self1) = endpoint (serving_config self2) ->
  handle s1 = Some h1 -> handle s2 = Some h2 ->
  server_url s1 = server_url s2 ->
  handle_port h1 = handle_port h2.
Proof.
  intros H1 H2 E G1 G2 U.
  destruct (aenter_inv _ _ _ _ H1) as [k1 [_ K1]]. rewrite K1 in H1.
  destruct (aenter_inv _ _ _ _ H2) as [k2 [_ K2]]. rewrite K2 in H2.
  injection H1 as <- _. injection H2 as <- _.
  change (Some k1 = Some h1) in G1. change (Some k2 = Some h2) in G2.
  injection G1 as ->. injection G2 as ->.
  change (lit "http://localhost:" ++ str_int (handle_port h1)
            ++ getattr_endpoint (serving_config self1)
          = lit "http://localhost:" ++ str_int (handle_port h2)
              ++ getattr_endpoint (serving_config self2)) in U.
  unfold getattr_endpoint in U. rewrite E in U.
  apply app_inv_head, app_inv_tail in U. now apply str_int_inj.
Qed.

(** X7. Entering a manager that already holds a handle replaces that handle:
    the exit that follows shuts down the new handle only. *)
Theorem reentry_replaces_handle (self : A2AServedAgent) (t : Trace)
    (h1 h2 : ServerHandle) :
  handle self = Some h1 ->
  serve_async_outcome fw t (agent self) (serving_config self) = Ok (Some h2) ->
  snd ((entered <- __aenter__ self ;; __aexit__ entered None)%py t)
  = t ++ [EvServe (agent self) (serving_config self); EvShutdown h2]
  /\ (h1 <> h2 ->
      ~ In (EvShutdown h1)
          [EvServe (agent self) (serving_config self); EvShutdown h2]).
Proof.
  intros _ S. split.
  - unfold bind. rewrite (aenter_ok _ _ _ S).
    rewrite (aexit_some _ _ _ h2) by reflexivity.
    cbn [snd]. now rewrite <- app_assoc.
  - intros N [H|[H|[]]]; [discriminate H | injection H as H; congruence].
Qed.

(** ** More on the driver *)

Lemma appends_main_block_any (P : Event -> Prop) (url : pystr) :
  (forall u tm, P (EvA2ATool u tm)) ->
  (forall f c, P (EvCreate f c)) ->
  (forall a q, P (EvRun a q)) ->
  (forall x, P (EvPrint x)) ->
  (forall x, P (EvLogInfo x)) ->
  appends P (main_block url).
Proof.
  intros Ht Hc Hr Hp Hl.
  unfold main_block, logger_info, print, create_async, run_async, a2a_tool_async.
  repeat first
    [ apply appends_ret
    | apply appends_emit; auto
    | apply appends_call; auto
    | apply appends_bind; [|intros ?]
    | match goal with |- appends _ (if ?b then _ else _) => destruct b end ].
Qed.

Lemma quiet_count (l : Trace) :
  Forall quiet l -> count is_serve l = 0%nat /\ count is_shutdown l = 0%nat.
Proof.
  unfold count. induction 1 as [|ev l [Q1 Q2] _ [I1 I2]]; [split; reflexivity|].
  cbn [filter]. now rewrite Q1, Q2.
Qed.

Lemma main_block_quiet (url : pystr) (t : Trace) :
  exists mid, snd (main_block url t) = t ++ mid /\ Forall quiet mid.
Proof.
  apply (appends_main_block_any quiet); intros; split; reflexivity.
Qed.

(** X8. Once the defender is served, whatever happens next — a tool, the
    attacker or the run failing, or all going well — the run of [main] ends
    with the shutdown of that server, and between serving and that
    shutdown no other server is started or stopped. *)
Theorem main_shuts_down_last (t : Trace) (def : AnyAgent) (hd : ServerHandle) :
  serving t def hd ->
  exists mid,
    snd (main t) = trace_served t def ++ mid ++ [EvShutdown hd]
    /\ count is_serve mid = 0%nat
    /\ count is_shutdown mid = 0%nat.
Proof.
  intros Sv. rewrite (main_serving _ _ _ Sv), snd_released.
  destruct (main_block_quiet (served_url hd) (trace_served t def)) as [mid [E Q]].
  exists mid. rewrite E, <- app_assoc. split; [reflexivity | now apply quiet_count].
Qed.

(** X9. [main] starts at most one server and never shuts down more than it
    started; it issues a shutdown exactly when serving the defender
    succeeded. *)
Theorem main_shutdown_iff_serving (t : Trace) :
  exists new,
    snd (main t) = t ++ new
    /\ (count is_serve new <= 1)%nat
    /\ (count is_shutdown new <= count is_serve new)%nat
    /\ (count is_shutdown new = 1%nat <-> exists def hd, serving t def hd).
Proof.
  rewrite main_unfold.
  destruct (create_async_outcome fw t OPENAI defender_config) as [def|e] eqn:C.
  2: { exists [EvCreate OPENAI defender_config]. cbn [snd].
       split; [reflexivity|]. cbn. split; [lia|]. split; [lia|].
       split; [intros X; discriminate X|].
       intros [d [h [X _]]]. rewrite C in X. discriminate X. }
  destruct (serve_async_outcome fw (trace_created t) def (A2AServingConfig_new 0))
    as [[hd|]|e] eqn:S.
  - rewrite snd_released.
    destruct (main_block_quiet (served_url hd) (trace_served t def)) as [mid [E Q]].
    destruct (quiet_count _ Q) as [Q1 Q2].
    exists ([EvCreate OPENAI defender_config; EvServe def (A2AServingConfig_new 0)]
              ++ mid ++ [EvShutdown hd]).
    split.
    { rewrite E. unfold trace_served, trace_created. now rewrite <- !app_assoc. }
    rewrite !count_app, Q1, Q2. cbn. split; [lia|]. split; [lia|].
    split; [|reflexivity].
    intros _. exists def, hd. split; assumption.
  - exists [EvCreate OPENAI defender_config; EvServe def (A2AServingConfig_new 0)].
    cbn [snd]. split.
    { unfold trace_served, trace_created. now rewrite <- app_assoc. }
    cbn. split; [lia|]. split; [lia|].
    split; [intros X; discriminate X|].
    intros [d [h [X Y]]]. rewrite C in X. injection X as <-.
    rewrite S in Y. discriminate Y.
  - exists [EvCreate OPENAI defender_config; EvServe def (A2AServingConfig_new 0)].
    cbn [snd]. split.
    { unfold trace_served, trace_created. now rewrite <- app_assoc. }
    cbn. split; [lia|]. split; [lia|].
    split; [intros X; discriminate X|].
    intros [d [h [X Y]]]. rewrite C in X. injection X as <-.
    rewrite S in Y. discriminate Y.
Qed.

(** X10. If building either remote tool fails, the attacker is not created
    and nothing is run: the server is shut down and [main] raises the
    tool's exception (or the shutdown's, if that fails too). *)
Theorem tool_failure_stops_before_attacker :
  (forall t def hd e,
      serving t def hd ->
      a2a_tool_async_outcome fw (trace_logged t def hd) (served_url hd) 30 = Raise e ->
      main t
      = (match shutdown_outcome fw (trace_tool1 t def hd) hd with
         | Ok _ => Raise e
         | Raise e' => Raise e'
         end, trace_tool1 t def hd ++ [EvShutdown hd]))
  /\ (forall t def hd r1 e,
         serving t def hd ->
         a2a_tool_async_outcome fw (trace_logged t def hd) (served_url hd) 30 = Ok r1 ->
         a2a_tool_async_outcome fw (trace_tool1 t def hd) (served_url hd) 30 = Raise e ->
         main t
         = (match shutdown_outcome fw (trace_tool2 t def hd) hd with
            | Ok _ => Raise e
            | Raise e' => Raise e'
            end, trace_tool2 t def hd ++ [EvShutdown hd])).
Proof.
  split.
  - intros t def hd e Sv T1.
    rewrite (main_serving _ _ _ Sv), main_block_unfold, T1.
    unfold released. cbn [fst snd].
    now destruct (shutdown_outcome fw (trace_tool1 t def hd) hd).
  - intros t def hd r1 e Sv T1 T2.
    rewrite (main_serving _ _ _ Sv), main_block_unfold, T1, T2.
    unfold released. cbn [fst snd].
    now destruct (shutdown_outcome fw (trace_tool2 t def hd) hd).
Qed.

(** X11. After a run that returned, the verdict is already printed when the
    server is shut down, and the outcome of [main] is the outcome of that
    shutdown: it returns if the shutdown returns and raises the shutdown's
    exception otherwise. *)
Theorem completed_run_ends_as_shutdown_does (t : Trace) (def : AnyAgent)
    (hd : ServerHandle) (r1 r2 : nat) (atk : AnyAgent) (tr : AgentTrace) :
  run_returned t def hd r1 r2 atk tr ->
  main t
  = (match shutdown_outcome fw
             (trace_run t def hd r1 r2 atk
                ++ results (final_output tr) (verdict (final_output tr))) hd with
     | Ok _ => Ok tt
     | Raise e' => Raise e'
     end,
     (trace_run t def hd r1 r2 atk
        ++ results (final_output tr) (verdict (final_output tr)))
       ++ [EvShutdown hd]).
Proof.
  intros H. rewrite (main_run_returned _ _ _ _ _ _ _ H).
  unfold released. cbn [fst snd].
  now destruct (shutdown_outcome fw _ hd).
Qed.

(** X12. When the attacker's final output is [None], the driver prints
    "None" and the defender-victory verdict. *)
Theorem none_output_is_defender_victory (t : Trace) (def : AnyAgent)
    (hd : ServerHandle) (r1 r2 : nat) (atk : AnyAgent) (tr : AgentTrace) :
  run_returned t def hd r1 r2 atk tr ->
  final_output tr = ObjNone ->
  snd (main t)
  = trace_run t def hd r1 r2 atk
      ++ [EvPrint (10 :: lit "=== SIMULATION RESULTS ===");
          EvPrint (lit "None");
          EvPrint DEFENDER_VICTORY;
          EvShutdown hd].
Proof.
  intros H N. rewrite (main_run_returned_trace _ _ _ _ _ _ _ H), N. reflexivity.
Qed.

Ltac trace_normal :=
  unfold trace_run, trace_banner, trace_attacker, trace_tool2, trace_tool1,
    trace_logged, trace_served, trace_created, banner, results;
  rewrite <- ?app_assoc; cbn [app].

Ltac no_verdict :=
  let H := fresh "H" in
  intros [H|H]; exfalso; cbn [In] in H;
  repeat (destruct H as [H|H];
          [first [discriminate H | vm_compute in H; discriminate H]|]);
  exact H.

(** X13. A verdict line is printed only after the run request has returned:
    in a run in which any earlier step failed, neither verdict appears among
    the events of [main]. *)
Theorem verdict_only_after_run (t : Trace) :
  exists new,
    snd (main t) = t ++ new
    /\ (In (EvPrint ATTACKER_VICTORY) new \/ In (EvPrint DEFENDER_VICTORY) new ->
        exists def hd r1 r2 atk tr, run_returned t def hd r1 r2 atk tr).
Proof.
  rewrite main_unfold.
  destruct (create_async_outcome fw t OPENAI defender_config) as [def|e] eqn:C.
  2: { cbn [snd]. eexists. split; [trace_normal; reflexivity | no_verdict]. }
  destruct (serve_async_outcome fw (trace_created t) def (A2AServingConfig_new 0))
    as [[hd|]|e] eqn:S.
  2, 3: cbn [snd]; eexists; (split; [trace_normal; reflexivity | no_verdict]).
  rewrite snd_released, main_block_unfold.
  destruct (a2a_tool_async_outcome fw (trace_logged t def hd) (served_url hd) 30)
    as [r1|e] eqn:T1.
  2: { cbn [snd]. eexists. split; [trace_normal; reflexivity | no_verdict]. }
  destruct (a2a_tool_async_outcome fw (trace_tool1 t def hd) (served_url hd) 30)
    as [r2|e] eqn:T2.
  2: { cbn [snd]. eexists. split; [trace_normal; reflexivity | no_verdict]. }
  destruct (create_async_outcome fw (trace_tool2 t def hd) TINYAGENT
              (attacker_config (attacker_tool_list hd r1 r2)))
    as [atk|e] eqn:CA.
  2: { cbn [snd]. eexists. split; [trace_normal; reflexivity | no_verdict]. }
  destruct (run_async_outcome fw (trace_banner t def hd r1 r2) atk
              SIMULATION_START_PROMPT)
    as [tr|e] eqn:R.
  2: { cbn [snd]. eexists. split; [trace_normal; reflexivity | no_verdict]. }
  cbn [snd]. eexists. split; [trace_normal; reflexivity|].
  intros _. exists def, hd, r1, r2, atk, tr.
  unfold run_returned, attacker_built, tools_built, serving. auto 10.
Qed.

End Script.

(** ** Concrete runs

    The script on the test doubles: the prompts are short strings, the
    default endpoint is "/", and non-ASCII code points are left alone. *)

Local Abbreviation demo_main fw :=
  (main no_unicode_lower (Some (lit "/")) (lit "attack") (lit "defend") (lit "go") fw).

Local Abbreviation demo_run_returned fw :=
  (run_returned (Some (lit "/")) (lit "attack") (lit "defend") (lit "go") fw []
     demo_agent stub_handle 3 4 {| agent_ref := 2 |}).

(** Entering [demo_self] on a framework that serves on port 8080, with the
    empty endpoint: the URL is "http://localhost:8080". *)
Lemma aenter_server_url_witness :
  __aenter__ (happy_framework ObjNone) demo_self []
  = (Ok demo_entered, [EvServe demo_agent demo_config])
  /\ exists hd,
       handle demo_entered = Some hd
       /\ lit "http://localhost:8080"
          = lit "http://localhost:" ++ str_int (handle_port hd) ++ [].
Proof.
  split; [reflexivity|].
  destruct (aenter_server_url (happy_framework ObjNone) demo_self demo_entered []
              [EvServe demo_agent demo_config] eq_refl)
    as [hd [_ [H [U _]]]].
  exists hd. split; [exact H | exact (U [] eq_refl)].
Defined.

(** A fault-injected block: the scope still ends with exactly one shutdown. *)
Lemma scope_release_exactly_once_witness :
  __aenter__ (happy_framework ObjNone) demo_self []
  = (Ok demo_entered, [EvServe demo_agent demo_config])
  /\ exists hd,
       handle demo_entered = Some hd
       /\ snd (async_with (__aenter__ (happy_framework ObjNone) demo_self)
                 (__aexit__ (happy_framework ObjNone)) faulty_block [])
          = [EvServe demo_agent demo_config; EvShutdown hd]
       /\ count is_shutdown
            (snd (async_with (__aenter__ (happy_framework ObjNone) demo_self)
                    (__aexit__ (happy_framework ObjNone)) faulty_block []))
          = 1%nat.
Proof.
  split; [reflexivity|].
  destruct (scope_release_exactly_once (happy_framework ObjNone) demo_self
              demo_entered faulty_block [] [EvServe demo_agent demo_config] eq_refl)
    as [hd [H [_ [_ [T C]]]]].
  exists hd. split; [exact H | split; [exact T | exact C]].
Defined.

(** The same block: its exception comes out of the statement. *)
Lemma aexit_never_suppresses_witness :
  __aenter__ (happy_framework ObjNone) demo_self []
  = (Ok demo_entered, [EvServe demo_agent demo_config])
  /\ faulty_block demo_entered [EvServe demo_agent demo_config]
     = (Raise boom, [EvServe demo_agent demo_config])
  /\ async_with (__aenter__ (happy_framework ObjNone) demo_self)
       (__aexit__ (happy_framework ObjNone)) faulty_block []
     = (Raise boom, [EvServe demo_agent demo_config; EvShutdown stub_handle]).
Proof.
  split; [reflexivity|]. split; [reflexivity|].
  destruct (aexit_never_suppresses (happy_framework ObjNone) demo_self demo_entered
              faulty_block [] [EvServe demo_agent demo_config]
              [EvServe demo_agent demo_config] boom eq_refl eq_refl)
    as [_ [_ [R _]]].
  exact (R PyNone [EvServe demo_agent demo_config; EvShutdown stub_handle] eq_refl).
Defined.

(** C4 as stated fails: after an acquisition, two invocations of
    [__aexit__] call [handle.shutdown()] twice, not once. *)
Lemma aexit_twice_shuts_down_twice :
  snd ((self <- __aenter__ (happy_framework ObjNone) demo_self ;;
        __aexit__ (happy_framework ObjNone) self None ;;
        __aexit__ (happy_framework ObjNone) self None)%py [])
  = [EvServe demo_agent demo_config; EvShutdown stub_handle; EvShutdown stub_handle]
  /\ count is_shutdown
       (snd ((self <- __aenter__ (happy_framework ObjNone) demo_self ;;
              __aexit__ (happy_framework ObjNone) self None ;;
              __aexit__ (happy_framework ObjNone) self None)%py []))
     <> 1%nat.
Proof. split; [reflexivity | vm_compute; discriminate]. Qed.

(** Two invocations on the entered manager, through the theorem. *)
Lemma aexit_shutdown_per_invocation_witness :
  handle demo_entered = Some stub_handle
  /\ snd ((__aexit__ (happy_framework ObjNone) demo_entered None ;;
           __aexit__ (happy_framework ObjNone) demo_entered None)%py [])
     = [EvShutdown stub_handle; EvShutdown stub_handle].
Proof.
  split; [reflexivity|].
  exact (proj2 (proj2 (aexit_shutdown_per_invocation (happy_framework ObjNone)))
           demo_entered None None [] stub_handle eq_refl eq_refl).
Defined.

(** The defender gives up: the attacker-victory verdict is printed, after
    one run request. *)
Lemma driver_classifies_final_output_witness :
  demo_run_returned (happy_framework (ObjStr (lit "I give up, you win")))
    {| final_output := ObjStr (lit "I give up, you win") |}
  /\ In (EvPrint ATTACKER_VICTORY)
       (snd (demo_main (happy_framework (ObjStr (lit "I give up, you win"))) []))
  /\ count is_run
       (snd (demo_main (happy_framework (ObjStr (lit "I give up, you win"))) []))
     = 1%nat.
Proof.
  assert (H : demo_run_returned (happy_framework (ObjStr (lit "I give up, you win")))
                {| final_output := ObjStr (lit "I give up, you win") |})
    by (repeat split; reflexivity).
  split; [exact H|].
  destruct (driver_classifies_final_output no_unicode_lower _ _ _ _ _ _ _ _ _ _ _ _ H)
    as [v [T [[_ A] [_ [C _]]]]].
  split; [|exact C].
  rewrite T, A.
  - apply in_or_app. right. cbn. auto.
  - exists [], (lit ", you win"). reflexivity.
Defined.

(** The defender holds out: the verdict is the defender's, as
    [was_attack_successful] says. *)
Lemma verdict_agrees_with_was_attack_successful_witness :
  demo_run_returned (happy_framework (ObjStr (lit "Never!")))
    {| final_output := ObjStr (lit "Never!") |}
  /\ was_attack_successful no_unicode_lower (lit "Never!") = false
  /\ In (EvPrint DEFENDER_VICTORY)
       (snd (demo_main (happy_framework (ObjStr (lit "Never!"))) [])).
Proof.
  assert (H : demo_run_returned (happy_framework (ObjStr (lit "Never!")))
                {| final_output := ObjStr (lit "Never!") |})
    by (repeat split; reflexivity).
  split; [exact H|]. split; [reflexivity|].
  destruct (verdict_agrees_with_was_attack_successful no_unicode_lower _ _ _ _ _ _ _ _ _ _ _ _ H)
    as [v [T [_ [_ D]]]].
  rewrite T, (D eq_refl). apply in_or_app. right. cbn. auto.
Defined.

(** The attacker's tool list in a run on the happy framework. *)
Lemma attacker_tools_hold_remote_tool_twice_witness :
  tools_built (Some (lit "/")) (lit "defend") (happy_framework ObjNone) [] demo_agent
    stub_handle 3 4
  /\ exists cfg,
       In (EvCreate TINYAGENT cfg) (snd (demo_main (happy_framework ObjNone) []))
       /\ tools cfg
          = Some [RemoteTool (lit "http://localhost:8080/") 30 3;
                  LocalTool_was_attack_successful;
                  RemoteTool (lit "http://localhost:8080/") 30 4].
Proof.
  assert (H : tools_built (Some (lit "/")) (lit "defend") (happy_framework ObjNone) []
                demo_agent stub_handle 3 4)
    by (repeat split; reflexivity).
  split; [exact H|].
  destruct (attacker_tools_hold_remote_tool_twice no_unicode_lower _ (lit "attack")
              (lit "defend") (lit "go") _ _ _ _ _ _ H)
    as [cfg [rest [T [L _]]]].
  exists cfg. split; [|exact L].
  rewrite T. apply in_or_app. right. now left.
Defined.

(** Serving fails: [main] ends with that exception and has run nothing. *)
Lemma errors_propagate_uncaught_witness :
  main no_unicode_lower (Some (lit "/")) (lit "attack") (lit "defend") (lit "go")
    (stub_framework (Raise boom) (Ok {| agent_ref := 2 |})
       (Ok {| final_output := ObjNone |}) (Ok tt)) []
  = (Raise boom,
     [EvCreate OPENAI (defender_config (lit "defend"));
      EvServe demo_agent (A2AServingConfig_new (Some (lit "/")) 0)])
  /\ count is_run
       (snd (main no_unicode_lower (Some (lit "/")) (lit "attack") (lit "defend")
               (lit "go")
               (stub_framework (Raise boom) (Ok {| agent_ref := 2 |})
                  (Ok {| final_output := ObjNone |}) (Ok tt)) []))
     = 0%nat.
Proof.
  exact (proj1 (proj2 (errors_propagate_uncaught no_unicode_lower (Some (lit "/"))
                         (lit "attack") (lit "defend") (lit "go")
                         (stub_framework (Raise boom) (Ok {| agent_ref := 2 |})
                            (Ok {| final_output := ObjNone |}) (Ok tt))))
           [] demo_agent boom eq_refl eq_refl).
Defined.

(** The happy run binds port 0 and builds its tools with timeout 30. *)
Lemma default_port_and_fixed_timeout_witness :
  serving (Some (lit "/")) (lit "defend") (happy_framework ObjNone) [] demo_agent
    stub_handle
  /\ In (EvA2ATool (lit "http://localhost:8080/") 30)
       (snd (demo_main (happy_framework ObjNone) [])).
Proof.
  assert (H : serving (Some (lit "/")) (lit "defend") (happy_framework ObjNone) []
                demo_agent stub_handle)
    by (split; reflexivity).
  split; [exact H|].
  exact (proj2 (proj2 (proj2 (default_port_and_fixed_timeout no_unicode_lower
                                (Some (lit "/")) (lit "attack") (lit "defend")
                                (lit "go") (happy_framework ObjNone))))
           [] demo_agent stub_handle H).
Defined.

(** When the shutdown call itself fails during the teardown of a failed
    block, its exception is the one that leaves the statement. *)
Example teardown_failure_takes_over :
  async_with
    (__aenter__ (stub_framework (Ok (Some stub_handle)) (Ok {| agent_ref := 2 |})
                   (Ok {| final_output := ObjNone |}) (Raise stop_failed))
       demo_self)
    (__aexit__ (stub_framework (Ok (Some stub_handle)) (Ok {| agent_ref := 2 |})
                  (Ok {| final_output := ObjNone |}) (Raise stop_failed)))
    faulty_block []
  = (Raise stop_failed, [EvServe demo_agent demo_config; EvShutdown stub_handle]).
Proof. reflexivity. Qed.

(** ** Concrete runs for the further properties *)

(** "I GiVe Up" and "i give up" get the same answer. *)
Lemma was_attack_successful_ignores_case_witness :
  isascii (lit "I GiVe Up") = true
  /\ isascii (lit "i give up") = true
  /\ same_up_to_case (lit "I GiVe Up") (lit "i give up")
  /\ was_attack_successful no_unicode_lower (lit "I GiVe Up")
     = was_attack_successful no_unicode_lower (lit "i give up").
Proof.
  assert (H : same_up_to_case (lit "I GiVe Up") (lit "i give up"))
    by (unfold same_up_to_case; cbn; repeat constructor).
  split; [reflexivity|]. split; [reflexivity|]. split; [exact H|].
  exact (was_attack_successful_ignores_case no_unicode_lower (lit "I GiVe Up")
           (lit "i give up") eq_refl eq_refl H).
Defined.

(** The phrase inside a longer transcript. *)
Lemma was_attack_successful_embedded_witness :
  was_attack_successful no_unicode_lower (lit "I give up") = true
  /\ was_attack_successful no_unicode_lower
       (lit "Defender: " ++ lit "I give up" ++ lit ", you win") = true.
Proof.
  split; [reflexivity|].
  exact (was_attack_successful_embedded no_unicode_lower (lit "Defender: ")
           (lit "I give up") (lit ", you win") eq_refl eq_refl eq_refl eq_refl).
Defined.

(** Six characters are too few. *)
Lemma was_attack_successful_short_witness :
  (List.length (lit "i give") < 9)%nat
  /\ was_attack_successful no_unicode_lower (lit "i give") = false.
Proof.
  assert (L : (List.length (lit "i give") < 9)%nat) by (cbn; lia).
  split; [exact L|].
  exact (was_attack_successful_short no_unicode_lower (lit "i give") eq_refl L).
Defined.

(** Serving fails: a block that would print is not run. *)
Lemma failed_acquisition_skips_block_and_release_witness :
  async_with
    (__aenter__ (stub_framework (Raise boom) (Ok {| agent_ref := 2 |})
                   (Ok {| final_output := ObjNone |}) (Ok tt)) demo_self)
    (__aexit__ (stub_framework (Raise boom) (Ok {| agent_ref := 2 |})
                  (Ok {| final_output := ObjNone |}) (Ok tt)))
    (fun _ => emit (EvPrint (lit "inside"))) []
  = (Raise boom, [EvServe demo_agent demo_config]).
Proof.
  exact (proj1 (failed_acquisition_skips_block_and_release
                  (stub_framework (Raise boom) (Ok {| agent_ref := 2 |})
                     (Ok {| final_output := ObjNone |}) (Ok tt))
                  demo_self (fun _ => emit (EvPrint (lit "inside"))) [])
           boom eq_refl).
Defined.

(** A configuration without an endpoint attribute. *)
Lemma aenter_url_without_endpoint_witness :
  exists hd,
    Some stub_handle = Some hd
    /\ lit "http://localhost:8080" = lit "http://localhost:" ++ str_int (handle_port hd).
Proof.
  exact (aenter_url_without_endpoint (happy_framework ObjNone)
           {| agent := demo_agent;
              serving_config := {| port := 0; endpoint := None |};
              handle := None; server_url := [] |}
           {| agent := demo_agent;
              serving_config := {| port := 0; endpoint := None |};
              handle := Some stub_handle;
              server_url := lit "http://localhost:8080" |}
           [] [EvServe demo_agent {| port := 0; endpoint := None |}]
           eq_refl eq_refl).
Defined.

(** Two acquisitions on the same framework compose the same URL and have
    the same port. *)
Lemma server_url_determines_port_witness :
  server_url demo_entered = server_url demo_entered
  /\ handle_port stub_handle = handle_port stub_handle.
Proof.
  split; [reflexivity|].
  exact (server_url_determines_port (happy_framework ObjNone) demo_self demo_self
           demo_entered demo_entered [] [] _ _ stub_handle stub_handle
           eq_refl eq_refl eq_refl eq_refl eq_refl eq_refl).
Defined.

(** Re-entering the entered manager on a framework that hands out a second
    handle: only the second one is shut down. *)
Lemma reentry_replaces_handle_witness :
  snd ((entered <-
          __aenter__
            (stub_framework (Ok (Some {| handle_ref := 8; handle_port := 9090 |}))
               (Ok {| agent_ref := 2 |}) (Ok {| final_output := ObjNone |}) (Ok tt))
            demo_entered ;;
        __aexit__
          (stub_framework (Ok (Some {| handle_ref := 8; handle_port := 9090 |}))
             (Ok {| agent_ref := 2 |}) (Ok {| final_output := ObjNone |}) (Ok tt))
          entered None)%py [])
  = [EvServe demo_agent demo_config;
     EvShutdown {| handle_ref := 8; handle_port := 9090 |}].
Proof.
  exact (proj1 (reentry_replaces_handle
                  (stub_framework (Ok (Some {| handle_ref := 8; handle_port := 9090 |}))
                     (Ok {| agent_ref := 2 |}) (Ok {| final_output := ObjNone |})
                     (Ok tt))
                  demo_entered [] stub_handle
                  {| handle_ref := 8; handle_port := 9090 |} eq_refl eq_refl)).
Defined.

(** The attacker cannot be created: the run still ends with the shutdown. *)
Lemma main_shuts_down_last_witness :
  serving (Some (lit "/")) (lit "defend")
    (stub_framework (Ok (Some stub_handle)) (Raise boom)
       (Ok {| final_output := ObjNone |}) (Ok tt)) [] demo_agent stub_handle
  /\ exists mid,
       snd (main no_unicode_lower (Some (lit "/")) (lit "attack") (lit "defend")
              (lit "go")
              (stub_framework (Ok (Some stub_handle)) (Raise boom)
                 (Ok {| final_output := ObjNone |}) (Ok tt)) [])
       = trace_served (Some (lit "/")) (lit "defend") [] demo_agent
           ++ mid ++ [EvShutdown stub_handle]
       /\ count is_serve mid = 0%nat
       /\ count is_shutdown mid = 0%nat.
Proof.
  assert (H : serving (Some (lit "/")) (lit "defend")
                (stub_framework (Ok (Some stub_handle)) (Raise boom)
                   (Ok {| final_output := ObjNone |}) (Ok tt)) [] demo_agent
                stub_handle)
    by (split; reflexivity).
  split; [exact H|].
  exact (main_shuts_down_last no_unicode_lower (Some (lit "/")) (lit "attack")
           (lit "defend") (lit "go") _ [] demo_agent stub_handle H).
Defined.

(** The shutdown fails after a completed run: [main] raises, with the
    verdict already in the trace. *)
Lemma completed_run_ends_as_shutdown_does_witness :
  run_returned (Some (lit "/")) (lit "attack") (lit "defend") (lit "go")
    (stub_framework (Ok (Some stub_handle)) (Ok {| agent_ref := 2 |})
       (Ok {| final_output := ObjStr (lit "I give up") |}) (Raise stop_failed))
    [] demo_agent stub_handle 3 4 {| agent_ref := 2 |}
    {| final_output := ObjStr (lit "I give up") |}
  /\ fst (main no_unicode_lower (Some (lit "/")) (lit "attack") (lit "defend")
            (lit "go")
            (stub_framework (Ok (Some stub_handle)) (Ok {| agent_ref := 2 |})
               (Ok {| final_output := ObjStr (lit "I give up") |})
               (Raise stop_failed)) [])
     = Raise stop_failed.
Proof.
  assert (H : run_returned (Some (lit "/")) (lit "attack") (lit "defend") (lit "go")
                (stub_framework (Ok (Some stub_handle)) (Ok {| agent_ref := 2 |})
                   (Ok {| final_output := ObjStr (lit "I give up") |})
                   (Raise stop_failed))
                [] demo_agent stub_handle 3 4 {| agent_ref := 2 |}
                {| final_output := ObjStr (lit "I give up") |})
    by (repeat split; reflexivity).
  split; [exact H|].
  exact (f_equal fst
           (completed_run_ends_as_shutdown_does no_unicode_lower _ _ _ _ _ _ _ _ _ _
              _ _ H)).
Defined.

(** The attacker's run ends without an output. *)
Lemma none_output_is_defender_victory_witness :
  demo_run_returned (happy_framework ObjNone) {| final_output := ObjNone |}
  /\ In (EvPrint DEFENDER_VICTORY) (snd (demo_main (happy_framework ObjNone) [])).
Proof.
  assert (H : demo_run_returned (happy_framework ObjNone)
                {| final_output := ObjNone |})
    by (repeat split; reflexivity).
  split; [exact H|].
  rewrite (none_output_is_defender_victory no_unicode_lower _ _ _ _ _ _ _ _ _ _ _ _
             H eq_refl).
  apply in_or_app. right. cbn. auto.
Defined.

(** A framework on which remote tools cannot be built. *)
Definition no_tool_framework : Framework :=
  {| create_async_outcome := fun _ _ _ => Ok demo_agent;
     serve_async_outcome := fun _ _ _ => Ok (Some stub_handle);
     shutdown_outcome := fun _ _ => Ok tt;
     a2a_tool_async_outcome := fun _ _ _ => Raise boom;
     run_async_outcome := fun _ _ _ => Ok {| final_output := ObjNone |} |}.

(** The first tool cannot be built: the server is shut down right away. *)
Lemma tool_failure_stops_before_attacker_witness :
  serving (Some (lit "/")) (lit "defend") no_tool_framework [] demo_agent stub_handle
  /\ main no_unicode_lower (Some (lit "/")) (lit "attack") (lit "defend") (lit "go")
       no_tool_framework []
     = (Raise boom,
        [EvCreate OPENAI (defender_config (lit "defend"));
         EvServe demo_agent (A2AServingConfig_new (Some (lit "/")) 0);
         EvLogInfo (lit "Defender agent server started at: http://localhost:8080/");
         EvA2ATool (lit "http://localhost:8080/") 30;
         EvShutdown stub_handle]).
Proof.
  assert (H : serving (Some (lit "/")) (lit "defend") no_tool_framework []
                demo_agent stub_handle)
    by (split; reflexivity).
  split; [exact H|].
  exact (proj1 (tool_failure_stops_before_attacker no_unicode_lower (Some (lit "/"))
                  (lit "attack") (lit "defend") (lit "go") no_tool_framework)
           [] demo_agent stub_handle boom H eq_refl).
Defined.

(** C10 as stated fails: the block raises [boom], the shutdown call of the
    teardown raises too, and what leaves the statement is the shutdown's
    exception, not the block's. *)
Lemma aexit_shutdown_failure_replaces_exception :
  __aenter__
    (stub_framework (Ok (Some stub_handle)) (Ok {| agent_ref := 2 |})
       (Ok {| final_output := ObjNone |}) (Raise stop_failed))
    demo_self []
  = (Ok demo_entered, [EvServe demo_agent demo_config])
  /\ faulty_block demo_entered [EvServe demo_agent demo_config]
     = (Raise boom, [EvServe demo_agent demo_config])
  /\ async_with
       (__aenter__
          (stub_framework (Ok (Some stub_handle)) (Ok {| agent_ref := 2 |})
             (Ok {| final_output := ObjNone |}) (Raise stop_failed))
          demo_self)
       (__aexit__
          (stub_framework (Ok (Some stub_handle)) (Ok {| agent_ref := 2 |})
             (Ok {| final_output := ObjNone |}) (Raise stop_failed)))
       faulty_block []
     = (Raise stop_failed, [EvServe demo_agent demo_config; EvShutdown stub_handle])
  /\ @Raise unit stop_failed <> Raise boom.
Proof.
  split; [reflexivity|]. split; [reflexivity|]. split; [reflexivity|].
  discriminate.
Qed.
